(** * Unikhorn coat calculator SDK (src/index.ts): embedding and properties

    The SDK is a thin client: it builds form-encoded request bodies, hands
    them to an axios instance and maps failures to [UnikhornAPIError].  The
    embedding below follows the TypeScript source method by method.

    - JavaScript values of type [any] (response bodies, the [others]
      mapping, linkage hints) are the inductive [value].
    - An [async] method is a computation in the monad [M]: it threads the
      list of requests that reached the network and ends either with a
      result or with a thrown value ([Throw] is a rejected promise, or a
      synchronous [throw] for the constructor).
    - The axios instance is modelled with the parts the source relies on:
      the adapter (the network, a parameter), the response interceptors and
      [axios.isAxiosError].

    Main results: the request bodies of [calculateSingleCoat] and
    [calculateOffspring], the sequential fail-fast loop of [batchCalculate],
    the local checks of [validateGenes], the constructor, and the error
    mapper [handleError].  The mapper is applied twice to a failed request,
    by the response interceptor and again by the [catch] block of the
    method; the second application does not recognise the error made by the
    first (section "Failures of the request"). *)

From Stdlib Require Import List String Ascii ZArith Lia Bool DecimalString.
Import ListNotations.
Open Scope string_scope.
Open Scope Z_scope.

#[local] Set Warnings "-register-all".

(** ** JavaScript values, [JSON.stringify], [URLSearchParams] *)

Module JS.

(** Values of type [any].  [VNum n] stands for an integer-valued number in
    the safe range; fractional numbers are outside the model.  An object is
    its list of own properties in insertion order. *)
Inductive value : Type :=
| VUndefined
| VNull
| VBool (b : bool)
| VNum (n : Z)
| VStr (s : string)
| VArr (items : list value)
| VObj (props : list (string * value)).

(** ToBoolean. *)
Definition truthy (v : value) : bool :=
  match v with
  | VUndefined | VNull => false
  | VBool b => b
  | VNum n => negb (n =? 0)
  | VStr s => negb (s =? EmptyString)%string
  | VArr _ | VObj _ => true
  end.

Fixpoint lookup (k : string) (props : list (string * value)) : value :=
  match props with
  | [] => VUndefined
  | (k', v) :: rest => if (k =? k')%string then v else lookup k rest
  end.

(** Optional property read [v?.k]: [undefined] on [null] and [undefined],
    and on primitives and arrays for a name they do not carry. *)
Definition get_opt (v : value) (k : string) : value :=
  match v with
  | VObj props => lookup k props
  | _ => VUndefined
  end.

Definition number_to_string (n : Z) : string :=
  NilZero.string_of_int (Z.to_int n).

Fixpoint join (sep : string) (l : list string) : string :=
  match l with
  | [] => EmptyString
  | [x] => x
  | x :: rest => x ++ sep ++ join sep rest
  end.

Definition has_own (k : string) (props : list (string * value)) : bool :=
  existsb (fun kv => (fst kv =? k)%string) props.

(** ToString, as the [Error] constructor applies it to its message; [None]
    is the TypeError it throws.  No value here is callable, so an object
    with an own [toString] property cannot be converted; any other object
    prints through [Object.prototype.toString], and an array joins the
    strings of its elements ([null] and [undefined] as the empty string). *)
Fixpoint to_string (v : value) : option string :=
  match v with
  | VUndefined => Some "undefined"
  | VNull => Some "null"
  | VBool b => Some (if b then "true" else "false")
  | VNum n => Some (number_to_string n)
  | VStr s => Some s
  | VArr items =>
      option_map (join ",")
        (fold_right
           (fun x acc =>
              match match x with
                    | VUndefined | VNull => Some EmptyString
                    | _ => to_string x
                    end, acc with
              | Some s, Some l => Some (s :: l)
              | _, _ => None
              end)
           (Some []) items)
  | VObj props =>
      if has_own "toString" props then None else Some "[object Object]"
  end.

(** ToString of an optional string, [undefined] when absent: what a DOM
    method does to a string argument. *)
Definition USVString (o : option string) : string :=
  match o with Some s => s | None => "undefined" end.

Definition hex_digit (upper : bool) (n : N) : ascii :=
  if (n <? 10)%N then ascii_of_N (48 + n)
  else ascii_of_N ((if upper then 55 else 87) + n).

Definition backslash : ascii := ascii_of_N 92.

(** QuoteJSONString, character by character. *)
Definition quote_char (c : ascii) : string :=
  let n := N_of_ascii c in
  if (n =? 8)%N then "\b"
  else if (n =? 9)%N then "\t"
  else if (n =? 10)%N then "\n"
  else if (n =? 12)%N then "\f"
  else if (n =? 13)%N then "\r"
  else if (n =? 34)%N then String backslash (String c EmptyString)
  else if (n =? 92)%N then String backslash (String backslash EmptyString)
  else if (n <? 32)%N then
    "\u00" ++ String (hex_digit false (n / 16)) (String (hex_digit false (n mod 16)) EmptyString)
  else String c EmptyString.

Fixpoint quote_body (s : string) : string :=
  match s with
  | EmptyString => EmptyString
  | String c rest => quote_char c ++ quote_body rest
  end.

Definition dquote : string := String (ascii_of_N 34) EmptyString.

Definition quote (s : string) : string := dquote ++ quote_body s ++ dquote.

(** [JSON.stringify v] without indentation; [None] is the [undefined] it
    returns for [undefined].  Properties holding [undefined] are left out of
    an object, and [undefined] in an array prints as [null]. *)
Fixpoint JSON_stringify (v : value) : option string :=
  match v with
  | VUndefined => None
  | VNull => Some "null"
  | VBool b => Some (if b then "true" else "false")
  | VNum n => Some (number_to_string n)
  | VStr s => Some (quote s)
  | VArr items =>
      Some ("[" ++ join "," (map (fun x => match JSON_stringify x with
                                           | Some s => s
                                           | None => "null"
                                           end) items) ++ "]")
  | VObj props =>
      Some ("{" ++ join "," (flat_map (fun kv => match JSON_stringify (snd kv) with
                                                  | Some s => [quote (fst kv) ++ ":" ++ s]
                                                  | None => []
                                                  end) props) ++ "}")
  end.

(** [URLSearchParams]: an ordered list of name/value pairs. *)
Definition URLSearchParams : Type := list (string * string).

Definition new_URLSearchParams : URLSearchParams := [].

Definition append (p : URLSearchParams) (name val : string) : URLSearchParams :=
  (p ++ [(name, val)])%list.

Definition getAll (p : URLSearchParams) (name : string) : list string :=
  map snd (filter (fun kv => (fst kv =? name)%string) p).

Definition has (p : URLSearchParams) (name : string) : bool :=
  existsb (fun kv => (fst kv =? name)%string) p.

(** The application/x-www-form-urlencoded byte serializer: alphanumerics and
    [*-._] stay, a space becomes [+], every other byte is percent-encoded. *)
Definition form_safe (n : N) : bool :=
  ((48 <=? n) && (n <=? 57) || (65 <=? n) && (n <=? 90) || (97 <=? n) && (n <=? 122)
   || (n =? 42) || (n =? 45) || (n =? 46) || (n =? 95))%N.

Definition form_char (c : ascii) : string :=
  let n := N_of_ascii c in
  if form_safe n then String c EmptyString
  else if (n =? 32)%N then "+"
  else String "%" (String (hex_digit true (n / 16)) (String (hex_digit true (n mod 16)) EmptyString)).

Fixpoint form_encode (s : string) : string :=
  match s with
  | EmptyString => EmptyString
  | String c rest => form_char c ++ form_encode rest
  end.

Definition toString (p : URLSearchParams) : string :=
  join "&" (map (fun kv => form_encode (fst kv) ++ "=" ++ form_encode (snd kv)) p).

End JS.

Import JS.

(** ** The axios data the SDK touches *)

Module Axios.

(** The merged configuration of one request, as the adapter receives it. *)
Record AxiosRequestConfig : Type := {
  method : string;
  url : string;
  baseURL : string;
  timeout : Z;
  headers : list (string * string);
  req_data : option string
}.

Record AxiosResponse : Type := {
  data : value;
  status : Z
}.

(** An error raised by axios ([isAxiosError] is [true] on it): [response] is
    set when the server answered, [request] when the request left without an
    answer coming back. *)
Record AxiosError : Type := {
  response : option AxiosResponse;
  request : bool
}.

End Axios.

(** ** src/index.ts: types *)

Inductive Lang : Type := fr | en.

Definition lang_string (l : Lang) : string :=
  match l with fr => "fr" | en => "en" end.

(** [extension] and [agouti] are typed [[string, string]]; the runtime checks
    of [validateGenes] also handle a missing array and another length, so
    the arrays are optional lists here. *)
Record BaseGenes : Type := {
  extension : option (list string);
  agouti : option (list string)
}.

Definition OthersGenes : Type := list (string * value).

Record HorseGenes : Type := {
  base : option BaseGenes;
  others : option OthersGenes;
  lang : option Lang
}.

Module Kit.
Record linkage : Type := {
  mother : option (list value);
  father : option (list value)
}.
End Kit.

Module Offspring.
Record OffspringGenes : Type := {
  mother : HorseGenes;
  father : HorseGenes;
  kit_linkage : option Kit.linkage;
  has_IDK : option bool;
  lang : option Lang
}.
End Offspring.

Definition CoatResult : Type := value.
Definition OffspringResult : Type := value.

Module Config.
Record UnikhornConfig : Type := {
  apiKey : option string;
  baseURL : option string;
  language : option Lang;
  timeout : option Z
}.
End Config.

Record UnikhornAPIError : Type := {
  name : string;
  message : string;
  statusCode : option Z;
  response : value
}.

(** ** Thrown values and the monad of the methods *)

Inductive thrown : Type :=
| ThrownAxios (e : Axios.AxiosError)
| ThrownAPI (e : UnikhornAPIError)
| ThrownError (kind msg : string)
| ThrownValue (v : value).

Inductive outcome (A : Type) : Type :=
| Return (a : A)
| Throw (e : thrown).

Arguments Return {A} a.
Arguments Throw {A} e.

(** The state is the list of requests handed to the adapter so far. *)
Definition M (A : Type) : Type :=
  list Axios.AxiosRequestConfig -> outcome A * list Axios.AxiosRequestConfig.

Definition ret {A} (a : A) : M A := fun sent => (Return a, sent).

Definition throw {A} (e : thrown) : M A := fun sent => (Throw e, sent).

Definition bind {A B} (m : M A) (k : A -> M B) : M B :=
  fun sent =>
    match m sent with
    | (Return a, sent') => k a sent'
    | (Throw e, sent') => (Throw e, sent')
    end.

Definition try_catch {A} (body : M A) (handler : thrown -> M A) : M A :=
  fun sent =>
    match body sent with
    | (Return a, sent') => (Return a, sent')
    | (Throw e, sent') => handler e sent'
    end.

(** [promise.then(onFulfilled, onRejected)]. *)
Definition then_ {A B} (p : M A) (onFulfilled : A -> M B) (onRejected : thrown -> M B)
  : M B :=
  fun sent =>
    match p sent with
    | (Return a, sent') => onFulfilled a sent'
    | (Throw e, sent') => onRejected e sent'
    end.

Notation "x <- m ;; k" := (bind m (fun x => k))
  (at level 61, m at next level, right associativity).

(** The return type [never], and [throw f(x)] for an [f] returning it. *)
Definition never : Type := Empty_set.

Definition throw_never {A} (m : M never) : M A :=
  bind m (fun v => match v with end).

Definition TypeError_convert : thrown :=
  ThrownError "TypeError" "Cannot convert object to primitive value".

(** [new UnikhornAPIError(message, statusCode, response)] (lines 71-80).
    [super(message)] stores ToString of a message other than [undefined],
    and throws the TypeError of a message that cannot be converted. *)
Definition new_UnikhornAPIError (msg : value) (code : option Z) (resp : value)
  : M UnikhornAPIError :=
  match msg with
  | VUndefined =>
      ret {| name := "UnikhornAPIError"; message := EmptyString;
             statusCode := code; response := resp |}
  | _ =>
      match to_string msg with
      | Some s =>
          ret {| name := "UnikhornAPIError"; message := s;
                 statusCode := code; response := resp |}
      | None => throw TypeError_convert
      end
  end.

(** [throw new UnikhornAPIError(message, statusCode, response)]. *)
Definition throw_new {A} (msg : value) (code : option Z) (resp : value) : M A :=
  bind (new_UnikhornAPIError msg code resp) (fun e => throw (ThrownAPI e)).

(** ** The axios instance *)

Module Instance.

(** The network: given the requests made before and the present one, either
    a response that axios resolves with or the value it rejects with. *)
Definition Adapter : Type :=
  list Axios.AxiosRequestConfig -> Axios.AxiosRequestConfig -> outcome Axios.AxiosResponse.

Record Defaults : Type := {
  baseURL : string;
  timeout : Z;
  headers : list (string * string)
}.

Record Interceptor : Type := {
  fulfilled : Axios.AxiosResponse -> M Axios.AxiosResponse;
  rejected : thrown -> M Axios.AxiosResponse
}.

Record AxiosInstance : Type := {
  defaults : Defaults;
  adapter : Adapter;
  interceptors_response : list Interceptor
}.

(** [axios.create(config)], on the adapter of the environment. *)
Definition create (env : Adapter) (config : Defaults) : AxiosInstance :=
  {| defaults := config; adapter := env; interceptors_response := [] |}.

(** [instance.interceptors.response.use(onFulfilled, onRejected)]. *)
Definition use (inst : AxiosInstance)
    (onFulfilled : Axios.AxiosResponse -> M Axios.AxiosResponse)
    (onRejected : thrown -> M Axios.AxiosResponse) : AxiosInstance :=
  {| defaults := defaults inst;
     adapter := adapter inst;
     interceptors_response :=
       (interceptors_response inst
          ++ [{| fulfilled := onFulfilled; rejected := onRejected |}])%list |}.

Definition set_header (hs : list (string * string)) (h : string * string)
  : list (string * string) :=
  if existsb (fun x => (fst x =? fst h)%string) hs
  then map (fun x => if (fst x =? fst h)%string then h else x) hs
  else (hs ++ [h])%list.

Definition dispatchRequest (inst : AxiosInstance) (config : Axios.AxiosRequestConfig)
  : M Axios.AxiosResponse :=
  fun sent => (adapter inst sent config, (sent ++ [config])%list).

(** [instance.request], as axios runs it: the merged configuration is
    dispatched to the adapter, and the promise of the answer is chained
    through the response interceptors in order,
    [promise = promise.then(fulfilled, rejected)]; a failure of the dispatch
    therefore reaches the [rejected] handler of the first interceptor. *)
Definition request (inst : AxiosInstance) (verb path : string)
    (body : option string) (hdrs : list (string * string)) : M Axios.AxiosResponse :=
  let config :=
    {| Axios.method := verb;
       Axios.url := path;
       Axios.baseURL := baseURL (defaults inst);
       Axios.timeout := timeout (defaults inst);
       Axios.headers := fold_left set_header hdrs (headers (defaults inst));
       Axios.req_data := body |} in
  fold_left (fun p i => then_ p (fulfilled i) (rejected i))
            (interceptors_response inst)
            (dispatchRequest inst config).

Definition post (inst : AxiosInstance) (path data : string)
    (hdrs : list (string * string)) : M Axios.AxiosResponse :=
  request inst "post" path (Some data) hdrs.

Definition get (inst : AxiosInstance) (path : string) : M Axios.AxiosResponse :=
  request inst "get" path None [].

End Instance.

(** ** src/index.ts: class UnikhornCoatCalculator *)

Record UnikhornCoatCalculator : Type := {
  client : Instance.AxiosInstance;
  language : Lang
}.

(** [axios.isAxiosError(error)] followed by the cast to [AxiosError]. *)
Definition isAxiosError (error : thrown) : option Axios.AxiosError :=
  match error with
  | ThrownAxios e => Some e
  | _ => None
  end.

(** [handleError] (lines 293-307).  Every path ends in a [throw]. *)
Definition handleError (error : thrown) : M never :=
  match isAxiosError error with
  | Some axiosError =>
      match Axios.response axiosError with
      | Some resp =>
          let m := get_opt (Axios.data resp) "message" in
          throw_new (if truthy m then m else VStr "API request failed")
                    (Some (Axios.status resp))
                    (Axios.data resp)
      | None =>
          if Axios.request axiosError
          then throw_new (VStr "No response from server") (Some 0) VUndefined
          else throw_new (VStr "An unexpected error occurred") None VUndefined
      end
  | None => throw_new (VStr "An unexpected error occurred") None VUndefined
  end.

Definition default_baseURL : string := "https://api.unikhorn.io/v1".
Definition default_timeout : Z := 30000.

(** The constructor (lines 93-117); [env] is the adapter that [axios.create]
    finds in its environment.  [!config.apiKey] holds for a missing key and
    for the empty string; [a || b] takes [b] for a missing, empty or zero
    [a]. *)
Definition new_UnikhornCoatCalculator (env : Instance.Adapter)
    (config : Config.UnikhornConfig) : M UnikhornCoatCalculator :=
  match Config.apiKey config with
  | None | Some EmptyString => throw (ThrownError "Error" "API key is required")
  | Some apiKey =>
      let language :=
        match Config.language config with Some l => l | None => en end in
      let client :=
        Instance.create env
          {| Instance.baseURL :=
               match Config.baseURL config with
               | None | Some EmptyString => default_baseURL
               | Some u => u
               end;
             Instance.timeout :=
               match Config.timeout config with
               | None | Some 0 => default_timeout
               | Some t => t
               end;
             Instance.headers :=
               [("Authorization", "Bearer " ++ apiKey);
                ("X-API-Key", apiKey);
                ("Content-Type", "application/json");
                ("X-SDK-Version", "1.0.0");
                ("X-SDK-Language", "JavaScript")] |} in
      let client :=
        Instance.use client (fun response => ret response)
                     (fun error => throw_never (handleError error)) in
      ret {| client := client; language := language |}
  end.

Definition TypeError : thrown :=
  ThrownError "TypeError" "Cannot read properties of undefined".

(** [genes.base.<locus>[i]] converted to the string [append] stores: the
    read throws when [base] or the array is missing, and an index past the
    end reads [undefined]. *)
Definition read_allele (genes : HorseGenes)
    (locus : BaseGenes -> option (list string)) (i : nat) : M string :=
  match base genes with
  | None => throw TypeError
  | Some b =>
      match locus b with
      | None => throw TypeError
      | Some alleles => ret (USVString (nth_error alleles i))
      end
  end.

Definition form_headers : list (string * string) :=
  [("Content-Type", "application/x-www-form-urlencoded")].

(** The typed objects as the values [JSON.stringify] walks; a missing
    optional property is left out. *)
Definition opt_prop {A} (k : string) (f : A -> value) (o : option A)
  : list (string * value) :=
  match o with
  | Some a => [(k, f a)]
  | None => []
  end.

Definition js_of_alleles (l : list string) : value := VArr (map VStr l).

Definition js_of_Lang (l : Lang) : value := VStr (lang_string l).

Definition js_of_BaseGenes (b : BaseGenes) : value :=
  VObj (opt_prop "extension" js_of_alleles (extension b)
        ++ opt_prop "agouti" js_of_alleles (agouti b))%list.

Definition js_of_HorseGenes (g : HorseGenes) : value :=
  VObj (opt_prop "base" js_of_BaseGenes (base g)
        ++ opt_prop "others" VObj (others g)
        ++ opt_prop "lang" js_of_Lang (lang g))%list.

Definition js_of_linkage (k : Kit.linkage) : value :=
  VObj (opt_prop "mother" VArr (Kit.mother k)
        ++ opt_prop "father" VArr (Kit.father k))%list.

(** [calculateSingleCoat] (lines 124-146). *)
Definition calculateSingleCoat (this : UnikhornCoatCalculator) (genes : HorseGenes)
  : M CoatResult :=
  try_catch
    (let formData := new_URLSearchParams in
     e0 <- read_allele genes extension 0 ;;
     let formData := append formData "base[extension][]" e0 in
     e1 <- read_allele genes extension 1 ;;
     let formData := append formData "base[extension][]" e1 in
     a0 <- read_allele genes agouti 0 ;;
     let formData := append formData "base[agouti][]" a0 in
     a1 <- read_allele genes agouti 1 ;;
     let formData := append formData "base[agouti][]" a1 in
     let formData :=
       append formData "lang"
              (lang_string (match lang genes with
                            | Some l => l
                            | None => language this
                            end)) in
     let formData :=
       match others genes with
       | Some o => append formData "others" (USVString (JSON_stringify (VObj o)))
       | None => formData
       end in
     response <- Instance.post (client this) "/coats/result" (toString formData)
                               form_headers ;;
     ret (Axios.data response))
    (fun error => throw_never (handleError error)).

(** [calculateOffspring] (lines 153-185). *)
Definition calculateOffspring (this : UnikhornCoatCalculator)
    (offspring : Offspring.OffspringGenes) : M OffspringResult :=
  try_catch
    (let formData := new_URLSearchParams in
     let formData :=
       append formData "mother"
              (USVString (JSON_stringify (js_of_HorseGenes (Offspring.mother offspring)))) in
     let formData :=
       append formData "father"
              (USVString (JSON_stringify (js_of_HorseGenes (Offspring.father offspring)))) in
     let formData :=
       append formData "lang"
              (lang_string (match Offspring.lang offspring with
                            | Some l => l
                            | None => language this
                            end)) in
     let formData :=
       match Offspring.kit_linkage offspring with
       | Some k =>
           append formData "kit_linkage" (USVString (JSON_stringify (js_of_linkage k)))
       | None => formData
       end in
     let formData :=
       match Offspring.has_IDK offspring with
       | Some b => append formData "has_IDK" (if b then "true" else "false")
       | None => formData
       end in
     response <- Instance.post (client this) "/coats/generateChild" (toString formData)
                               form_headers ;;
     ret (Axios.data response))
    (fun error => throw_never (handleError error)).

Module BatchItem.
Record t : Type := { id : string; genes : HorseGenes }.
End BatchItem.

Module BatchResult.
Record t : Type := { id : string; result : CoatResult }.
End BatchResult.

(** The [for ... of] loop of [batchCalculate], on the [results] array it
    pushes to. *)
Fixpoint batch_loop (this : UnikhornCoatCalculator) (horses : list BatchItem.t)
    (results : list BatchResult.t) : M (list BatchResult.t) :=
  match horses with
  | [] => ret results
  | horse :: rest =>
      results <-
        try_catch
          (result <- calculateSingleCoat this (BatchItem.genes horse) ;;
           ret (results ++ [{| BatchResult.id := BatchItem.id horse;
                               BatchResult.result := result |}])%list)
          (fun error => throw_never (handleError error)) ;;
      batch_loop this rest results
  end.

(** [batchCalculate] (lines 192-207). *)
Definition batchCalculate (this : UnikhornCoatCalculator) (horses : list BatchItem.t)
  : M (list BatchResult.t) :=
  batch_loop this horses [].

Definition not_available : string :=
  "This endpoint is not available in the current API version".

(** [getAllCoatColors] (lines 214-216). *)
Definition getAllCoatColors (this : UnikhornCoatCalculator) : M (list CoatResult) :=
  throw_new (VStr not_available) None VUndefined.

Record Validation : Type := {
  valid : bool;
  errors : option (list string)
}.

(** [!pair || pair.length !== 2]. *)
Definition not_two (pair : option (list string)) : bool :=
  match pair with
  | None => true
  | Some l => negb (List.length l =? 2)%nat
  end.

Definition base_required : string := "Base genes are required".
Definition extension_two : string := "Extension gene must have exactly 2 alleles".
Definition agouti_two : string := "Agouti gene must have exactly 2 alleles".

(** [validateGenes] (lines 224-246). *)
Definition validateGenes (this : UnikhornCoatCalculator) (genes : HorseGenes)
  : M Validation :=
  let errors : list string := [] in
  let errors :=
    match base genes with
    | None => (errors ++ [base_required])%list
    | Some b =>
        let errors :=
          if not_two (extension b) then (errors ++ [extension_two])%list else errors in
        let errors :=
          if not_two (agouti b) then (errors ++ [agouti_two])%list else errors in
        errors
    end in
  ret {| valid := (List.length errors =? 0)%nat;
         errors := if (0 <? List.length errors)%nat then Some errors else None |}.

(** [getUsageStats] (lines 253-259). *)
Definition getUsageStats (this : UnikhornCoatCalculator) : M value :=
  throw_new (VStr not_available) None VUndefined.

(** [getApiInfo] (lines 265-279). *)
Definition getApiInfo (this : UnikhornCoatCalculator) : M value :=
  try_catch
    (response <- Instance.get (client this) "/coats/api-info" ;;
     ret (Axios.data response))
    (fun error => throw_never (handleError error)).

(** [setLanguage] (lines 285-287). *)
Definition setLanguage (this : UnikhornCoatCalculator) (l : Lang)
  : UnikhornCoatCalculator :=
  {| client := client this; language := l |}.

(** [createClient] (lines 311-313). *)
Definition createClient (env : Instance.Adapter) (config : Config.UnikhornConfig)
  : M UnikhornCoatCalculator :=
  new_UnikhornCoatCalculator env config.

(** ** Derived notions used by the statements *)

(** What [handleError] throws on [error]. *)
Definition handleError_thrown (error : thrown) : thrown :=
  match handleError error [] with
  | (Throw t, _) => t
  | (Return v, _) => match v with end
  end.

(** The clients a program can hold: built by the constructor, then possibly
    changed by [setLanguage]. *)
Inductive Client (env : Instance.Adapter) : UnikhornCoatCalculator -> Prop :=
| Client_new config sent this sent' :
    new_UnikhornCoatCalculator env config sent = (Return this, sent') ->
    Client env this
| Client_setLanguage this l :
    Client env this ->
    Client env (setLanguage this l).

(** The configuration a request of [this] reaches the adapter with. *)
Definition request_config (this : UnikhornCoatCalculator) (verb path : string)
    (body : option string) (hdrs : list (string * string)) : Axios.AxiosRequestConfig :=
  {| Axios.method := verb;
     Axios.url := path;
     Axios.baseURL := Instance.baseURL (Instance.defaults (client this));
     Axios.timeout := Instance.timeout (Instance.defaults (client this));
     Axios.headers :=
       fold_left Instance.set_header hdrs (Instance.headers (Instance.defaults (client this)));
     Axios.req_data := body |}.

(** [calls this sent horses results sent']: calling [calculateSingleCoat] on
    the items of [horses] one after the other, each call starting in the
    state the one before left, succeeds on every item, with [results] and
    the final state [sent']. *)
Inductive calls (this : UnikhornCoatCalculator)
  : list Axios.AxiosRequestConfig -> list BatchItem.t -> list BatchResult.t ->
    list Axios.AxiosRequestConfig -> Prop :=
| calls_nil sent : calls this sent [] [] sent
| calls_cons sent horse r sent1 rest rs sent2 :
    calculateSingleCoat this (BatchItem.genes horse) sent = (Return r, sent1) ->
    calls this sent1 rest rs sent2 ->
    calls this sent (horse :: rest)
          ({| BatchResult.id := BatchItem.id horse; BatchResult.result := r |} :: rs)
          sent2.

Definition unexpected : UnikhornAPIError :=
  {| name := "UnikhornAPIError";
     message := "An unexpected error occurred";
     statusCode := None;
     response := VUndefined |}.

(** The entries [calculateSingleCoat] appends for the alleles [e0 e1] and
    [a0 a1]. *)
Definition coat_form (this : UnikhornCoatCalculator) (genes : HorseGenes)
    (e0 e1 a0 a1 : string) : URLSearchParams :=
  ([("base[extension][]", e0);
    ("base[extension][]", e1);
    ("base[agouti][]", a0);
    ("base[agouti][]", a1);
    ("lang", lang_string (match lang genes with
                          | Some l => l
                          | None => language this
                          end))]
   ++ match others genes with
      | Some o => [("others", USVString (JSON_stringify (VObj o)))]
      | None => []
      end)%list.

(** The entries [calculateOffspring] appends. *)
Definition offspring_form (this : UnikhornCoatCalculator)
    (offspring : Offspring.OffspringGenes) : URLSearchParams :=
  ([("mother", USVString (JSON_stringify (js_of_HorseGenes (Offspring.mother offspring))));
    ("father", USVString (JSON_stringify (js_of_HorseGenes (Offspring.father offspring))));
    ("lang", lang_string (match Offspring.lang offspring with
                          | Some l => l
                          | None => language this
                          end))]
   ++ match Offspring.kit_linkage offspring with
      | Some k => [("kit_linkage", USVString (JSON_stringify (js_of_linkage k)))]
      | None => []
      end
   ++ match Offspring.has_IDK offspring with
      | Some b => [("has_IDK", if b then "true" else "false")]
      | None => []
      end)%list.

(** What a network method makes of the answer to its one request: the
    interceptor has mapped a failure already, and the [catch] block of the
    method maps the mapped error once more. *)
Definition surfaced (answer : outcome Axios.AxiosResponse) : outcome value :=
  match answer with
  | Return r => Return (Axios.data r)
  | Throw _ => Throw (ThrownAPI unexpected)
  end.

(** ** Concrete inputs for the examples *)

Definition example_config : Config.UnikhornConfig :=
  {| Config.apiKey := Some "key";
     Config.baseURL := None;
     Config.language := None;
     Config.timeout := None |}.

(** The client the constructor returns on [example_config]. *)
Definition example_client (env : Instance.Adapter) : UnikhornCoatCalculator :=
  {| client :=
       {| Instance.defaults :=
            {| Instance.baseURL := "https://api.unikhorn.io/v1";
               Instance.timeout := 30000;
               Instance.headers :=
                 [("Authorization", "Bearer key");
                  ("X-API-Key", "key");
                  ("Content-Type", "application/json");
                  ("X-SDK-Version", "1.0.0");
                  ("X-SDK-Language", "JavaScript")] |};
          Instance.adapter := env;
          Instance.interceptors_response :=
            [{| Instance.fulfilled := fun response => ret response;
                Instance.rejected := fun error => throw_never (handleError error) |}] |};
     language := en |}.

Definition G1 : HorseGenes :=
  {| base := Some {| extension := Some ["E"; "e"]; agouti := Some ["A"; "a"] |};
     others := Some [("dun", VStr "DD")];
     lang := None |}.

Definition G2 : HorseGenes :=
  {| base := Some {| extension := Some ["e"; "e"]; agouti := Some ["a"; "a"] |};
     others := None;
     lang := Some fr |}.

Definition example_offspring : Offspring.OffspringGenes :=
  {| Offspring.mother := G1;
     Offspring.father := G2;
     Offspring.kit_linkage := None;
     Offspring.has_IDK := Some false;
     Offspring.lang := None |}.

(** HTTP 422 with body [{"message": "invalid allele"}]. *)
Definition body_422 : value := VObj [("message", VStr "invalid allele")].

Definition failure_422 : thrown :=
  ThrownAxios {| Axios.response := Some {| Axios.data := body_422; Axios.status := 422 |};
                 Axios.request := true |}.

(** A request that left and was never answered. *)
Definition failure_timeout : thrown :=
  ThrownAxios {| Axios.response := None; Axios.request := true |}.

Definition env_fails (failure : thrown) : Instance.Adapter :=
  fun _ _ => Throw failure.

(** A server that answers the n-th request with the number n. *)
Definition env_ok : Instance.Adapter :=
  fun sent _ => Return {| Axios.data := VNum (Z.of_nat (List.length sent)); Axios.status := 200 |}.

(** As [env_ok], but the second request gets the 422 answer. *)
Definition env_second_fails : Instance.Adapter :=
  fun sent config =>
    if (List.length sent =? 1)%nat then Throw failure_422 else env_ok sent config.

Definition example_batch : list BatchItem.t :=
  [{| BatchItem.id := "a"; BatchItem.genes := G1 |};
   {| BatchItem.id := "b"; BatchItem.genes := G2 |}].

(** A response body whose [message] is an object with an own [toString]
    property, which is not callable: JSON [{"message": {"toString": 1}}]. *)
Definition body_unconvertible : value :=
  VObj [("message", VObj [("toString", VNum 1)])].

Definition failure_unconvertible : thrown :=
  ThrownAxios {| Axios.response :=
                   Some {| Axios.data := body_unconvertible; Axios.status := 500 |};
                 Axios.request := true |}.

(** Genes outside the declared type: no [base]; one extension allele and
    three agouti alleles. *)
Definition G_no_base : HorseGenes :=
  {| base := None; others := None; lang := None |}.

Definition G_uneven : HorseGenes :=
  {| base := Some {| extension := Some ["E"]; agouti := Some ["A"; "a"; "At"] |};
     others := None;
     lang := None |}.

(** A request of the SDK: a POST to /coats/result. *)
Definition coat_post (config : Axios.AxiosRequestConfig) : Prop :=
  Axios.method config = "post" /\ Axios.url config = "/coats/result".

(** Case analysis on the answer of the adapter to the request in the goal. *)
Ltac answer_cases env sent :=
  match goal with
  | |- context [env sent ?config] => destruct (env sent config)
  end.

(** ** The error mapper *)

Lemma throw_new_eq {A} (msg : value) (code : option Z) (resp : value)
    (sent : list Axios.AxiosRequestConfig) :
  @throw_new A msg code resp sent
  = (Throw match msg with
           | VUndefined =>
               ThrownAPI {| name := "UnikhornAPIError"; message := EmptyString;
                            statusCode := code; response := resp |}
           | _ =>
               match to_string msg with
               | Some s =>
                   ThrownAPI {| name := "UnikhornAPIError"; message := s;
                                statusCode := code; response := resp |}
               | None => TypeError_convert
               end
           end, sent).
Proof.
  unfold throw_new, bind, new_UnikhornAPIError.
  destruct msg; try reflexivity; destruct (to_string _); reflexivity.
Qed.

Lemma handleError_throws (error : thrown) (sent : list Axios.AxiosRequestConfig) :
  handleError error sent = (Throw (handleError_thrown error), sent).
Proof.
  unfold handleError_thrown, handleError.
  destruct (isAxiosError error) as [ax|]; [|rewrite !throw_new_eq; reflexivity].
  destruct (Axios.response ax) as [resp|]; [rewrite !throw_new_eq; reflexivity|].
  destruct (Axios.request ax); rewrite !throw_new_eq; reflexivity.
Qed.

(** The response branch: a truthy [message] is converted, a falsy or
    missing one gives way to the generic text. *)
Lemma handleError_response (resp : Axios.AxiosResponse) (req : bool) :
  handleError_thrown
    (ThrownAxios {| Axios.response := Some resp; Axios.request := req |})
  = (let m := get_opt (Axios.data resp) "message" in
     if truthy m
     then match to_string m with
          | Some s =>
              ThrownAPI {| name := "UnikhornAPIError"; message := s;
                           statusCode := Some (Axios.status resp);
                           response := Axios.data resp |}
          | None => TypeError_convert
          end
     else ThrownAPI {| name := "UnikhornAPIError";
                       message := "API request failed";
                       statusCode := Some (Axios.status resp);
                       response := Axios.data resp |}).
Proof.
  unfold handleError_thrown, handleError. cbn [isAxiosError Axios.response].
  rewrite throw_new_eq. cbv zeta.
  destruct (get_opt (Axios.data resp) "message") as [| |[]|n|s|l|p]; cbn [truthy];
    try reflexivity.
  - destruct (negb (n =? 0)); reflexivity.
  - destruct (negb (s =? EmptyString)%string); reflexivity.
Qed.

Lemma handleError_no_response :
  handleError_thrown
    (ThrownAxios {| Axios.response := None; Axios.request := true |})
  = ThrownAPI {| name := "UnikhornAPIError";
                 message := "No response from server";
                 statusCode := Some 0;
                 response := VUndefined |}.
Proof. reflexivity. Qed.

Lemma handleError_not_axios (error : thrown) :
  isAxiosError error = None -> handleError_thrown error = ThrownAPI unexpected.
Proof.
  intros H. unfold handleError_thrown, handleError. rewrite H. reflexivity.
Qed.

(** What [handleError] throws is never an axios error. *)
Lemma handleError_thrown_not_axios (error : thrown) :
  isAxiosError (handleError_thrown error) = None.
Proof.
  destruct error as [[[resp|] req]|a|k m|v]; try reflexivity.
  - rewrite handleError_response. cbv zeta.
    destruct (truthy _); [destruct (to_string _)|]; reflexivity.
  - destruct req; reflexivity.
Qed.

(** Mapping a mapped error: the second pass keeps nothing of the first. *)
Lemma handleError_twice (error : thrown) :
  handleError_thrown (handleError_thrown error) = ThrownAPI unexpected.
Proof. apply handleError_not_axios, handleError_thrown_not_axios. Qed.

Lemma throw_never_handleError {A} (error : thrown) (sent : list Axios.AxiosRequestConfig) :
  @throw_never A (handleError error) sent = (Throw (handleError_thrown error), sent).
Proof.
  unfold throw_never, bind. rewrite handleError_throws. reflexivity.
Qed.

(** A body guarded by [catch (error) { throw this.handleError(error) }]. *)
Lemma try_catch_handleError {A} (body : M A) (sent : list Axios.AxiosRequestConfig) :
  try_catch body (fun error => throw_never (handleError error)) sent
  = match body sent with
    | (Return a, sent') => (Return a, sent')
    | (Throw e, sent') => (Throw (handleError_thrown e), sent')
    end.
Proof.
  unfold try_catch. destruct (body sent) as [[a|e] sent']; [reflexivity|].
  apply throw_never_handleError.
Qed.

(** ** Clients and their requests *)

Lemma Client_interceptors env this :
  Client env this ->
  Instance.interceptors_response (client this)
  = [{| Instance.fulfilled := fun response => ret response;
        Instance.rejected := fun error => throw_never (handleError error) |}]
  /\ Instance.adapter (client this) = env.
Proof.
  induction 1 as [config sent this sent' H | this l _ IH]; [|exact IH].
  unfold new_UnikhornCoatCalculator in H.
  destruct (Config.apiKey config) as [[|c k]|]; try discriminate.
  unfold ret in H. injection H as <- _. split; reflexivity.
Qed.

(** A request of a client: the adapter's answer passes through, and a
    failure of the adapter comes back mapped by the interceptor. *)
Lemma Client_request env this verb path body hdrs sent :
  Client env this ->
  Instance.request (client this) verb path body hdrs sent
  = (match env sent (request_config this verb path body hdrs) with
     | Return r => Return r
     | Throw e => Throw (handleError_thrown e)
     end,
     (sent ++ [request_config this verb path body hdrs])%list).
Proof.
  intros HC. destruct (Client_interceptors env this HC) as [Hi Ha].
  unfold Instance.request. rewrite Hi. cbn.
  unfold then_, Instance.dispatchRequest. rewrite Ha.
  fold (request_config this verb path body hdrs).
  destruct (env sent (request_config this verb path body hdrs)) as [r|e].
  - reflexivity.
  - apply throw_never_handleError.
Qed.

Lemma example_client_new env sent :
  new_UnikhornCoatCalculator env example_config sent = (Return (example_client env), sent).
Proof. reflexivity. Qed.

Lemma example_client_Client env : Client env (example_client env).
Proof. exact (Client_new env example_config [] _ [] (example_client_new env [])). Qed.

(** ** Local methods *)

(** C8: [getAllCoatColors] and [getUsageStats] reject with the fixed
    "not available" [UnikhornAPIError] for every client and every state of
    the network, and the list of requests made is left as it was. *)
Theorem C8_unsupported_endpoints (this : UnikhornCoatCalculator)
    (sent : list Axios.AxiosRequestConfig) :
  let err := {| name := "UnikhornAPIError";
                message := "This endpoint is not available in the current API version";
                statusCode := None;
                response := VUndefined |} in
  getAllCoatColors this sent = (Throw (ThrownAPI err), sent)
  /\ getUsageStats this sent = (Throw (ThrownAPI err), sent).
Proof. split; reflexivity. Qed.

(** C10: when [base] is absent, [validateGenes] returns [valid: false] with
    exactly the one error "Base genes are required"; no allele-pair error
    comes with it. *)
Theorem C10_base_missing (this : UnikhornCoatCalculator) (genes : HorseGenes)
    (sent : list Axios.AxiosRequestConfig) :
  base genes = None ->
  validateGenes this genes sent
  = (Return {| valid := false; errors := Some ["Base genes are required"] |}, sent).
Proof.
  intros H. unfold validateGenes. rewrite H. reflexivity.
Qed.

Lemma C10_base_missing_witness :
  let genes := {| base := None; others := None; lang := Some fr |} in
  base genes = None
  /\ validateGenes (example_client env_ok) genes []
     = (Return {| valid := false; errors := Some ["Base genes are required"] |}, []).
Proof.
  split; [reflexivity|].
  apply (C10_base_missing (example_client env_ok)
           {| base := None; others := None; lang := Some fr |} []).
  reflexivity.
Defined.

Lemma not_two_false (pair : option (list string)) :
  not_two pair = false <-> exists l, pair = Some l /\ List.length l = 2%nat.
Proof.
  unfold not_two. destruct pair as [l|].
  - rewrite negb_false_iff, Nat.eqb_eq. split.
    + intros H. exists l. split; [reflexivity|exact H].
    + intros (l' & [= <-] & H). exact H.
  - split; [discriminate|]. intros (l & H & _). discriminate.
Qed.

Lemma not_two_true (pair : option (list string)) :
  not_two pair = true <-> forall l, pair = Some l -> List.length l <> 2%nat.
Proof.
  unfold not_two. destruct pair as [l|].
  - rewrite negb_true_iff, Nat.eqb_neq. split.
    + intros H l' [= <-]. exact H.
    + intros H. apply H. reflexivity.
  - split; [discriminate|reflexivity].
Qed.

(** C7: [validateGenes] always returns and makes no request.  With [base]
    present and two-element [extension] and [agouti] it returns
    [{valid: true, errors: undefined}].  With [base] present, the extension
    error is reported exactly when [extension] is not a two-element array
    and the agouti error exactly when [agouti] is not one, each whatever the
    other check found; when both fail, both errors are returned together. *)
Theorem C7_validateGenes (this : UnikhornCoatCalculator) (genes : HorseGenes)
    (sent : list Axios.AxiosRequestConfig) :
  (exists v, validateGenes this genes sent = (Return v, sent))
  /\ (forall b x1 x2 y1 y2,
         base genes = Some b ->
         extension b = Some [x1; x2] ->
         agouti b = Some [y1; y2] ->
         validateGenes this genes sent
         = (Return {| valid := true; errors := None |}, sent))
  /\ (forall b,
         base genes = Some b ->
         exists v,
           validateGenes this genes sent = (Return v, sent)
           /\ let errs := match errors v with Some l => l | None => [] end in
              (In "Extension gene must have exactly 2 alleles" errs
               <-> forall l, extension b = Some l -> List.length l <> 2%nat)
              /\ (In "Agouti gene must have exactly 2 alleles" errs
                  <-> forall l, agouti b = Some l -> List.length l <> 2%nat)
              /\ ((forall l, extension b = Some l -> List.length l <> 2%nat) ->
                  (forall l, agouti b = Some l -> List.length l <> 2%nat) ->
                  v = {| valid := false;
                         errors := Some ["Extension gene must have exactly 2 alleles";
                                         "Agouti gene must have exactly 2 alleles"] |})).
Proof.
  split; [eexists; reflexivity|]. split.
  - intros b x1 x2 y1 y2 Hb He Ha. unfold validateGenes.
    rewrite Hb, He, Ha. reflexivity.
  - intros b Hb. eexists. split; [reflexivity|].
    rewrite Hb. cbv zeta.
    pose proof (not_two_true (extension b)) as He.
    pose proof (not_two_true (agouti b)) as Ha.
    destruct (not_two (extension b)), (not_two (agouti b)); cbn;
      (split; [|split]); try tauto.
    all: try (split; [intros [H|[H|[]]]; discriminate H | intros H]).
    all: try (split; [intros [H|[]]; discriminate H | intros H]).
    all: try (split; [intros [] | intros H]).
    all: try (apply He in H; discriminate H).
    all: try (apply Ha in H; discriminate H).
    all: try (intros H1 H2; apply He in H1; discriminate H1).
    all: try (intros H1 H2; apply Ha in H2; discriminate H2).
Qed.

Lemma C7_validateGenes_witness :
  let bad := {| base := Some {| extension := Some ["E"]; agouti := None |};
                others := None; lang := None |} in
  validateGenes (example_client env_ok) G1 []
  = (Return {| valid := true; errors := None |}, [])
  /\ validateGenes (example_client env_ok) bad []
     = (Return {| valid := false;
                  errors := Some ["Extension gene must have exactly 2 alleles";
                                  "Agouti gene must have exactly 2 alleles"] |}, []).
Proof.
  split.
  - apply (proj1 (proj2 (C7_validateGenes (example_client env_ok) G1 []))
             {| extension := Some ["E"; "e"]; agouti := Some ["A"; "a"] |}
             "E" "e" "A" "a"); reflexivity.
  - destruct (proj2 (proj2 (C7_validateGenes (example_client env_ok)
                {| base := Some {| extension := Some ["E"]; agouti := None |};
                   others := None; lang := None |} []))
                {| extension := Some ["E"]; agouti := None |} eq_refl)
      as (v & Hv & _ & _ & Hboth).
    rewrite Hv. f_equal. f_equal. apply Hboth.
    + intros l [= <-]. cbn. lia.
    + intros l H. discriminate H.
Defined.

(** ** Network methods of a client *)

Lemma handleError_thrown_API (a : UnikhornAPIError) :
  handleError_thrown (ThrownAPI a) = ThrownAPI unexpected.
Proof. reflexivity. Qed.

Lemma calculateSingleCoat_request env this genes e0 e1 a0 a1 sent :
  Client env this ->
  base genes = Some {| extension := Some [e0; e1]; agouti := Some [a0; a1] |} ->
  let config :=
    request_config this "post" "/coats/result"
                   (Some (toString (coat_form this genes e0 e1 a0 a1))) form_headers in
  calculateSingleCoat this genes sent
  = (surfaced (env sent config), (sent ++ [config])%list).
Proof.
  intros HC Hb config. subst config. unfold calculateSingleCoat, coat_form.
  rewrite try_catch_handleError.
  unfold bind, read_allele. rewrite Hb.
  cbn [extension agouti nth_error USVString ret].
  unfold Instance.post, append, new_URLSearchParams.
  destruct (others genes) as [o|]; cbn [app];
    rewrite (Client_request env this _ _ _ _ sent HC);
    answer_cases env sent; rewrite ?handleError_twice; reflexivity.
Qed.

Lemma calculateOffspring_request env this offspring sent :
  Client env this ->
  let config :=
    request_config this "post" "/coats/generateChild"
                   (Some (toString (offspring_form this offspring))) form_headers in
  calculateOffspring this offspring sent
  = (surfaced (env sent config), (sent ++ [config])%list).
Proof.
  intros HC config. subst config. unfold calculateOffspring, offspring_form.
  rewrite try_catch_handleError.
  unfold bind, Instance.post, append, new_URLSearchParams.
  destruct (Offspring.kit_linkage offspring) as [k|],
           (Offspring.has_IDK offspring) as [b|]; cbn [app];
    rewrite (Client_request env this _ _ _ _ sent HC);
    answer_cases env sent; rewrite ?handleError_twice; reflexivity.
Qed.

Lemma getApiInfo_request env this sent :
  Client env this ->
  let config := request_config this "get" "/coats/api-info" None [] in
  getApiInfo this sent = (surfaced (env sent config), (sent ++ [config])%list).
Proof.
  intros HC config. unfold getApiInfo.
  rewrite try_catch_handleError. unfold bind, Instance.get.
  rewrite (Client_request env this _ _ _ _ sent HC).
  fold config. destruct (env sent config); rewrite ?handleError_twice; reflexivity.
Qed.

(** C5: for a client and genes with two extension and two agouti alleles,
    [calculateSingleCoat] sends one POST to /coats/result whose body is the
    form encoding of: the two extension alleles in order under
    [base[extension][]], the two agouti alleles in order under
    [base[agouti][]], [lang] (the per-call language if given, else the
    client's), and [others], holding [JSON.stringify(genes.others)], exactly
    when [others] is given; without [others] the body has no such field. *)
Theorem C5_single_coat_body (env : Instance.Adapter) (this : UnikhornCoatCalculator)
    (genes : HorseGenes) (e0 e1 a0 a1 : string)
    (sent : list Axios.AxiosRequestConfig) :
  Client env this ->
  base genes = Some {| extension := Some [e0; e1]; agouti := Some [a0; a1] |} ->
  exists formData : URLSearchParams,
    snd (calculateSingleCoat this genes sent)
    = (sent ++ [request_config this "post" "/coats/result"
                               (Some (toString formData)) form_headers])%list
    /\ formData
       = ([("base[extension][]", e0); ("base[extension][]", e1);
           ("base[agouti][]", a0); ("base[agouti][]", a1);
           ("lang", lang_string (match lang genes with
                                 | Some l => l
                                 | None => language this
                                 end))]
          ++ match others genes with
             | Some o => [("others", USVString (JSON_stringify (VObj o)))]
             | None => []
             end)%list
    /\ getAll formData "base[extension][]" = [e0; e1]
    /\ getAll formData "base[agouti][]" = [a0; a1]
    /\ getAll formData "lang"
       = [match lang genes with
          | Some l => lang_string l
          | None => lang_string (language this)
          end]
    /\ match others genes with
       | Some o =>
           exists s, JSON_stringify (VObj o) = Some s
                     /\ getAll formData "others" = [s]
       | None => has formData "others" = false
       end.
Proof.
  intros HC Hb. exists (coat_form this genes e0 e1 a0 a1).
  split.
  { rewrite (calculateSingleCoat_request env this genes e0 e1 a0 a1 sent HC Hb).
    reflexivity. }
  unfold coat_form.
  destruct (others genes) as [o|], (lang genes) as [l|]; cbn;
    repeat split; try reflexivity; eexists; split; reflexivity.
Qed.

Lemma C5_single_coat_body_witness :
  Client env_ok (example_client env_ok)
  /\ base G1 = Some {| extension := Some ["E"; "e"]; agouti := Some ["A"; "a"] |}
  /\ exists formData : URLSearchParams,
       snd (calculateSingleCoat (example_client env_ok) G1 [])
       = [request_config (example_client env_ok) "post" "/coats/result"
                         (Some (toString formData)) form_headers]
       /\ toString formData
          = "base%5Bextension%5D%5B%5D=E&base%5Bextension%5D%5B%5D=e&base%5Bagouti%5D%5B%5D=A&base%5Bagouti%5D%5B%5D=a&lang=en&others=%7B%22dun%22%3A%22DD%22%7D".
Proof.
  split; [apply example_client_Client|]. split; [reflexivity|].
  destruct (C5_single_coat_body env_ok (example_client env_ok) G1 "E" "e" "A" "a" []
              (example_client_Client env_ok) eq_refl)
    as (formData & Hsent & Hform & _).
  exists formData. split; [exact Hsent|].
  rewrite Hform. reflexivity.
Defined.

(** C6: for a client, [calculateOffspring] sends one POST to
    /coats/generateChild whose body is the form encoding of: [mother] and
    [father], each one field holding the JSON text of the whole parent;
    [lang]; [kit_linkage] as JSON text exactly when it is given; and
    [has_IDK], absent when unset, the string [true] or [false] otherwise.
    No other field name occurs. *)
Theorem C6_offspring_body (env : Instance.Adapter) (this : UnikhornCoatCalculator)
    (offspring : Offspring.OffspringGenes) (sent : list Axios.AxiosRequestConfig) :
  Client env this ->
  exists (formData : URLSearchParams) (sm sf : string),
    snd (calculateOffspring this offspring sent)
    = (sent ++ [request_config this "post" "/coats/generateChild"
                               (Some (toString formData)) form_headers])%list
    /\ JSON_stringify (js_of_HorseGenes (Offspring.mother offspring)) = Some sm
    /\ JSON_stringify (js_of_HorseGenes (Offspring.father offspring)) = Some sf
    /\ formData
       = ([("mother", sm); ("father", sf);
           ("lang", lang_string (match Offspring.lang offspring with
                                 | Some l => l
                                 | None => language this
                                 end))]
          ++ match Offspring.kit_linkage offspring with
             | Some k => [("kit_linkage", USVString (JSON_stringify (js_of_linkage k)))]
             | None => []
             end
          ++ match Offspring.has_IDK offspring with
             | Some b => [("has_IDK", if b then "true" else "false")]
             | None => []
             end)%list
    /\ getAll formData "mother" = [sm]
    /\ getAll formData "father" = [sf]
    /\ (forall k, In k (map fst formData) ->
                  In k ["mother"; "father"; "lang"; "kit_linkage"; "has_IDK"])
    /\ match Offspring.kit_linkage offspring with
       | Some k =>
           exists s, JSON_stringify (js_of_linkage k) = Some s
                     /\ getAll formData "kit_linkage" = [s]
       | None => has formData "kit_linkage" = false
       end
    /\ match Offspring.has_IDK offspring with
       | None => has formData "has_IDK" = false
       | Some false => getAll formData "has_IDK" = ["false"]
       | Some true => getAll formData "has_IDK" = ["true"]
       end.
Proof.
  intros HC. exists (offspring_form this offspring). do 2 eexists.
  split.
  { rewrite (calculateOffspring_request env this offspring sent HC). reflexivity. }
  split; [reflexivity|]. split; [reflexivity|].
  unfold offspring_form.
  destruct (Offspring.kit_linkage offspring) as [k|],
           (Offspring.has_IDK offspring) as [[]|];
    cbn [app USVString getAll has filter map existsb fst snd String.eqb Ascii.eqb
         Bool.eqb orb andb];
    repeat split; try reflexivity;
    try (eexists; split; reflexivity);
    cbn; intros k' Hk; tauto.
Qed.

Lemma C6_offspring_body_witness :
  Client env_ok (example_client env_ok)
  /\ exists formData : URLSearchParams,
       snd (calculateOffspring (example_client env_ok) example_offspring [])
       = [request_config (example_client env_ok) "post" "/coats/generateChild"
                         (Some (toString formData)) form_headers]
       /\ getAll formData "has_IDK" = ["false"]
       /\ has formData "kit_linkage" = false.
Proof.
  split; [apply example_client_Client|].
  destruct (C6_offspring_body env_ok (example_client env_ok) example_offspring []
              (example_client_Client env_ok))
    as (formData & sm & sf & Hsent & _ & _ & _ & _ & _ & _ & Hkit & Hidk).
  exists formData. split; [exact Hsent|]. split; [exact Hidk|exact Hkit].
Defined.

(** ** Construction *)




(** ** The mapper on a message that cannot be converted *)

(** What a guarded body throws has passed through [handleError]. *)
Lemma guarded_throws_mapped {A} (body : M A) sent e sent' :
  try_catch body (fun error => throw_never (handleError error)) sent = (Throw e, sent') ->
  exists e0, e = handleError_thrown e0.
Proof.
  rewrite try_catch_handleError.
  destruct (body sent) as [[a|e0] s]; [discriminate|].
  intros [= <- _]. exists e0. reflexivity.
Qed.

(** C3 on the code: the server answers 500 with the body
    [{"message": {"toString": 1}}].  The message is truthy, so [handleError]
    passes it to the [UnikhornAPIError] constructor, whose [super(message)]
    throws a TypeError: the mapper fails with a TypeError, not with a
    [UnikhornAPIError], and the response interceptor rejects the request
    with that TypeError.  (The [catch] block of the method maps it to the
    generic [UnikhornAPIError], so nothing else reaches the caller.) *)
Theorem C3_handleError_not_total :
  let this := example_client (env_fails failure_unconvertible) in
  truthy (get_opt body_unconvertible "message") = true
  /\ handleError failure_unconvertible []
     = (Throw (ThrownError "TypeError" "Cannot convert object to primitive value"), [])
  /\ (forall a, fst (handleError failure_unconvertible []) <> Throw (ThrownAPI a))
  /\ fst (Instance.get (client this) "/coats/api-info" [])
     = Throw (ThrownError "TypeError" "Cannot convert object to primitive value")
  /\ fst (getApiInfo this [])
     = Throw (ThrownAPI {| name := "UnikhornAPIError";
                           message := "An unexpected error occurred";
                           statusCode := None;
                           response := VUndefined |}).
Proof.
  cbv zeta. split; [reflexivity|]. split; [reflexivity|].
  split; [intros a; discriminate|]. split; reflexivity.
Qed.

(** ** The batch *)

Lemma batch_loop_step_ok this horse rest results sent r sent1 :
  calculateSingleCoat this (BatchItem.genes horse) sent = (Return r, sent1) ->
  batch_loop this (horse :: rest) results sent
  = batch_loop this rest
      (results ++ [{| BatchResult.id := BatchItem.id horse;
                      BatchResult.result := r |}])%list sent1.
Proof.
  intros H. cbn [batch_loop]. unfold bind, try_catch. rewrite H. reflexivity.
Qed.

Lemma batch_loop_step_fail this horse rest results sent e sent1 :
  calculateSingleCoat this (BatchItem.genes horse) sent = (Throw e, sent1) ->
  batch_loop this (horse :: rest) results sent
  = (Throw (handleError_thrown e), sent1).
Proof.
  intros H. cbn [batch_loop]. unfold bind at 1. rewrite try_catch_handleError.
  unfold bind. rewrite H. reflexivity.
Qed.

Lemma batch_loop_calls this horses rs sent sent' :
  calls this sent horses rs sent' ->
  forall results,
    batch_loop this horses results sent = (Return (results ++ rs)%list, sent').
Proof.
  induction 1 as [sent | sent horse r sent1 rest rs sent2 Hcall _ IH]; intros results.
  - cbn. unfold ret. rewrite app_nil_r. reflexivity.
  - rewrite (batch_loop_step_ok _ _ _ _ _ _ _ Hcall), IH, <- app_assoc. reflexivity.
Qed.

Lemma batch_loop_first_failure this done rs sent sent1 :
  calls this sent done rs sent1 ->
  forall horse rest e sent2 results,
    calculateSingleCoat this (BatchItem.genes horse) sent1 = (Throw e, sent2) ->
    batch_loop this (done ++ horse :: rest) results sent
    = (Throw (handleError_thrown e), sent2).
Proof.
  induction 1 as [sent | sent h r sent1 done rs sent2 Hcall _ IH];
    intros horse rest e sent3 results Hfail.
  - apply batch_loop_step_fail. exact Hfail.
  - cbn [app]. rewrite (batch_loop_step_ok _ _ _ _ _ _ _ Hcall).
    apply IH. exact Hfail.
Qed.

Lemma calls_ids this horses rs sent sent' :
  calls this sent horses rs sent' ->
  map BatchResult.id rs = map BatchItem.id horses.
Proof.
  induction 1 as [|sent horse r sent1 rest rs sent2 _ _ IH]; [reflexivity|].
  cbn. rewrite IH. reflexivity.
Qed.

Lemma calls_or_first_failure this horses :
  forall sent,
    (exists rs sent', calls this sent horses rs sent')
    \/ (exists done rs horse rest sent1 e sent2,
           horses = (done ++ horse :: rest)%list
           /\ calls this sent done rs sent1
           /\ calculateSingleCoat this (BatchItem.genes horse) sent1 = (Throw e, sent2)).
Proof.
  induction horses as [|horse rest IH]; intros sent.
  - left. exists [], sent. constructor.
  - destruct (calculateSingleCoat this (BatchItem.genes horse) sent)
      as [[r|e] sent1] eqn:Hcall.
    + destruct (IH sent1) as [(rs & sent' & Hc)
                             |(done & rs & h & rest' & s1 & e & s2 & -> & Hc & Hf)].
      * left. eexists _, sent'. econstructor; eassumption.
      * right. exists (horse :: done). eexists _, h, rest', s1, e, s2.
        split; [reflexivity|]. split; [econstructor; eassumption|exact Hf].
    + right. exists [], [], horse, rest, sent, e, sent1.
      split; [reflexivity|]. split; [constructor|exact Hcall].
Qed.

Lemma calls_requests env this horses rs sent sent' :
  Client env this ->
  calls this sent horses rs sent' ->
  (forall h, In h horses ->
     exists e0 e1 a0 a1,
       base (BatchItem.genes h)
       = Some {| extension := Some [e0; e1]; agouti := Some [a0; a1] |}) ->
  exists reqs,
    sent' = (sent ++ reqs)%list
    /\ Forall2 (fun h config =>
                  exists e0 e1 a0 a1,
                    base (BatchItem.genes h)
                    = Some {| extension := Some [e0; e1]; agouti := Some [a0; a1] |}
                    /\ config
                       = request_config this "post" "/coats/result"
                           (Some (toString (coat_form this (BatchItem.genes h) e0 e1 a0 a1)))
                           form_headers)
               horses reqs.
Proof.
  intros HC Hcalls. induction Hcalls as [sent | sent horse r sent1 rest rs sent2 Hcall _ IH];
    intros Htyped.
  - exists []. rewrite app_nil_r. split; [reflexivity|constructor].
  - destruct (Htyped horse (or_introl eq_refl)) as (e0 & e1 & a0 & a1 & Hb).
    rewrite (calculateSingleCoat_request env this _ e0 e1 a0 a1 sent HC Hb) in Hcall.
    cbv zeta in Hcall. injection Hcall as _ <-.
    destruct IH as (reqs & -> & HF).
    { intros h Hin. apply Htyped. right. exact Hin. }
    eexists (_ :: reqs). rewrite <- app_assoc. split; [reflexivity|].
    constructor; [|exact HF].
    exists e0, e1, a0, a1. split; [exact Hb|reflexivity].
Qed.

(** What [calculateSingleCoat] throws, [handleError] maps to the generic
    error. *)
Lemma calculateSingleCoat_throws_mapped this genes sent e sent' :
  calculateSingleCoat this genes sent = (Throw e, sent') ->
  handleError_thrown e = ThrownAPI unexpected.
Proof.
  intros H. destruct (guarded_throws_mapped _ _ _ _ H) as [e0 ->].
  apply handleError_twice.
Qed.

(** C4 on the code: the batch of the items "a" and "b", where the request
    of "b" is answered with 422 and [{"message": "invalid allele"}].  The
    call for "a" succeeds; the request for "b" is rejected with the mapped
    error ("invalid allele", 422, the body); the batch rejects, returning
    no result, but with the generic "An unexpected error occurred" error
    instead of the mapped one. *)
Theorem C4_batch_mapped_error_lost :
  let this := example_client env_second_fails in
  let req1 := request_config this "post" "/coats/result"
                (Some (toString (coat_form this G1 "E" "e" "A" "a"))) form_headers in
  let req2 := request_config this "post" "/coats/result"
                (Some (toString (coat_form this G2 "e" "e" "a" "a"))) form_headers in
  calculateSingleCoat this G1 [] = (Return (VNum 0), [req1])
  /\ Instance.post (client this) "/coats/result"
       (toString (coat_form this G2 "e" "e" "a" "a")) form_headers [req1]
     = (Throw (ThrownAPI {| name := "UnikhornAPIError";
                            message := "invalid allele";
                            statusCode := Some 422;
                            response := VObj [("message", VStr "invalid allele")] |}),
        [req1; req2])
  /\ batchCalculate this example_batch []
     = (Throw (ThrownAPI {| name := "UnikhornAPIError";
                            message := "An unexpected error occurred";
                            statusCode := None;
                            response := VUndefined |}),
        [req1; req2]).
Proof. cbv zeta. split; [reflexivity|]. split; reflexivity. Qed.

(** ** Failures of the request *)

(** On a client, a request the adapter fails on ends every network method
    with the same error, whatever the failure was. *)
Lemma failed_request_surfaces_unexpected env this :
  Client env this ->
  (forall sent config, exists e, env sent config = Throw e) ->
  forall sent,
    (forall genes, fst (calculateSingleCoat this genes sent) = Throw (ThrownAPI unexpected))
    /\ (forall offspring,
           fst (calculateOffspring this offspring sent) = Throw (ThrownAPI unexpected))
    /\ fst (getApiInfo this sent) = Throw (ThrownAPI unexpected).
Proof.
  intros HC Hfail sent. split; [|split].
  - intros genes. unfold calculateSingleCoat. rewrite try_catch_handleError.
    unfold bind, read_allele.
    destruct (base genes) as [b|]; [|reflexivity].
    destruct (extension b) as [e|]; [|reflexivity].
    destruct (agouti b) as [a|]; [|reflexivity].
    cbn [ret]. unfold Instance.post.
    rewrite (Client_request env this _ _ _ _ sent HC).
    match goal with |- context [env sent ?c] => destruct (Hfail sent c) as [e' ->] end.
    cbn [fst]. rewrite handleError_twice. reflexivity.
  - intros offspring. rewrite (calculateOffspring_request env this offspring sent HC).
    cbv zeta.
    match goal with |- context [env sent ?c] => destruct (Hfail sent c) as [e' ->] end.
    reflexivity.
  - rewrite (getApiInfo_request env this sent HC). cbv zeta.
    match goal with |- context [env sent ?c] => destruct (Hfail sent c) as [e' ->] end.
    reflexivity.
Qed.

(** An empty [message] in the body counts as none: the generic text takes
    its place. *)
Lemma handleError_empty_message :
  handleError
    (ThrownAxios
       {| Axios.response :=
            Some {| Axios.data := VObj [("message", VStr EmptyString)];
                    Axios.status := 500 |};
          Axios.request := true |}) []
  = (Throw (ThrownAPI {| name := "UnikhornAPIError";
                         message := "API request failed";
                         statusCode := Some 500;
                         response := VObj [("message", VStr EmptyString)] |}), []).
Proof. reflexivity. Qed.

(** C1 on the code: the server answers 422 with the body
    [{"message": "invalid allele"}].  [handleError] makes the error
    ("invalid allele", 422, the body) of that failure, and the response
    interceptor rejects the request with it; but each network method then
    surfaces "An unexpected error occurred" without status code and
    response. *)
Theorem C1_response_error_lost :
  let this := example_client (env_fails failure_422) in
  let mapped := {| name := "UnikhornAPIError";
                   message := "invalid allele";
                   statusCode := Some 422;
                   response := VObj [("message", VStr "invalid allele")] |} in
  let lost := {| name := "UnikhornAPIError";
                 message := "An unexpected error occurred";
                 statusCode := None;
                 response := VUndefined |} in
  new_UnikhornCoatCalculator (env_fails failure_422) example_config []
  = (Return this, [])
  /\ handleError failure_422 [] = (Throw (ThrownAPI mapped), [])
  /\ fst (Instance.get (client this) "/coats/api-info" []) = Throw (ThrownAPI mapped)
  /\ fst (calculateSingleCoat this G1 []) = Throw (ThrownAPI lost)
  /\ fst (calculateOffspring this example_offspring []) = Throw (ThrownAPI lost)
  /\ fst (batchCalculate this example_batch []) = Throw (ThrownAPI lost)
  /\ fst (getApiInfo this []) = Throw (ThrownAPI lost).
Proof. repeat split. Qed.

(** C2 on the code: the request left and no answer came.  [handleError]
    makes the "No response from server" error with status 0 of that failure,
    and the interceptor rejects the request with it; but each network method
    then surfaces "An unexpected error occurred" without a status code. *)
Theorem C2_no_response_surfaced :
  let this := example_client (env_fails failure_timeout) in
  let lost := {| name := "UnikhornAPIError";
                 message := "An unexpected error occurred";
                 statusCode := None;
                 response := VUndefined |} in
  new_UnikhornCoatCalculator (env_fails failure_timeout) example_config []
  = (Return this, [])
  /\ handleError failure_timeout []
     = (Throw (ThrownAPI {| name := "UnikhornAPIError";
                            message := "No response from server";
                            statusCode := Some 0;
                            response := VUndefined |}), [])
  /\ fst (Instance.get (client this) "/coats/api-info" [])
     = Throw (ThrownAPI {| name := "UnikhornAPIError";
                           message := "No response from server";
                           statusCode := Some 0;
                           response := VUndefined |})
  /\ fst (calculateSingleCoat this G1 []) = Throw (ThrownAPI lost)
  /\ fst (calculateOffspring this example_offspring []) = Throw (ThrownAPI lost)
  /\ fst (batchCalculate this example_batch []) = Throw (ThrownAPI lost)
  /\ fst (getApiInfo this []) = Throw (ThrownAPI lost).
Proof. repeat split. Qed.

(** The same happens to the 422 answer of C1 on its way out of a method:
    the interceptor has made the right error of it, and the method surfaces
    the generic one. *)
Lemma response_422_surfaced :
  let this := example_client (env_fails failure_422) in
  let lost := {| name := "UnikhornAPIError";
                 message := "An unexpected error occurred";
                 statusCode := None;
                 response := VUndefined |} in
  fst (calculateSingleCoat this G1 []) = Throw (ThrownAPI lost)
  /\ fst (calculateOffspring this example_offspring []) = Throw (ThrownAPI lost)
  /\ fst (batchCalculate this example_batch []) = Throw (ThrownAPI lost)
  /\ fst (getApiInfo this []) = Throw (ThrownAPI lost).
Proof. repeat split. Qed.

(** ** Further properties of the methods *)

(** *** [calculateSingleCoat] on any genes *)

(** The two ways a call on a client goes: a read of [genes.base] or of one
    of its arrays fails before anything is sent, or one request leaves with
    the first two entries of each array. *)
Lemma calculateSingleCoat_cases env this genes sent :
  Client env this ->
  (calculateSingleCoat this genes sent = (Throw (ThrownAPI unexpected), sent)
   /\ (base genes = None
       \/ exists b, base genes = Some b /\ (extension b = None \/ agouti b = None)))
  \/ (exists b e a,
         base genes = Some b /\ extension b = Some e /\ agouti b = Some a
         /\ let config :=
              request_config this "post" "/coats/result"
                (Some (toString
                         (coat_form this genes
                            (USVString (nth_error e 0)) (USVString (nth_error e 1))
                            (USVString (nth_error a 0)) (USVString (nth_error a 1)))))
                form_headers in
            calculateSingleCoat this genes sent
            = (surfaced (env sent config), (sent ++ [config])%list)).
Proof.
  intros HC. unfold calculateSingleCoat. rewrite try_catch_handleError.
  unfold bind, read_allele.
  destruct (base genes) as [b|] eqn:Hb; [|left; split; [reflexivity|left; reflexivity]].
  destruct (extension b) as [e|] eqn:He;
    [|left; split; [reflexivity|right; exists b; split; [reflexivity|left; exact He]]].
  destruct (agouti b) as [a|] eqn:Ha;
    [|left; split; [reflexivity|right; exists b; split; [reflexivity|right; exact Ha]]].
  right. exists b, e, a. do 3 (split; [first [reflexivity | assumption]|]).
  cbv zeta. cbn [ret]. unfold coat_form, Instance.post, append, new_URLSearchParams.
  destruct (others genes) as [o|]; cbn [app];
    rewrite (Client_request env this _ _ _ _ sent HC);
    answer_cases env sent; rewrite ?handleError_twice; reflexivity.
Qed.

(** X5: when [base], or the [extension] or [agouti] array, is missing,
    [calculateSingleCoat] sends nothing and rejects with the generic
    "An unexpected error occurred" error, without status code or response. *)
Theorem X5_single_coat_local_failure (env : Instance.Adapter)
    (this : UnikhornCoatCalculator) (genes : HorseGenes)
    (sent : list Axios.AxiosRequestConfig) :
  Client env this ->
  (base genes = None
   \/ exists b, base genes = Some b /\ (extension b = None \/ agouti b = None)) ->
  calculateSingleCoat this genes sent
  = (Throw (ThrownAPI {| name := "UnikhornAPIError";
                         message := "An unexpected error occurred";
                         statusCode := None;
                         response := VUndefined |}), sent).
Proof.
  intros HC Hmiss.
  destruct (calculateSingleCoat_cases env this genes sent HC)
    as [[H _]|(b & e & a & Hb & He & Ha & _)]; [exact H|].
  exfalso. destruct Hmiss as [H|(b' & Hb' & [H|H])]; congruence.
Qed.

Lemma X5_single_coat_local_failure_witness :
  Client env_ok (example_client env_ok)
  /\ base G_no_base = None
  /\ calculateSingleCoat (example_client env_ok) G_no_base []
     = (Throw (ThrownAPI unexpected), []).
Proof.
  split; [apply example_client_Client|]. split; [reflexivity|].
  apply (X5_single_coat_local_failure env_ok (example_client env_ok) G_no_base []
           (example_client_Client env_ok)).
  left. reflexivity.
Defined.

(** X6: with [base] and both arrays present, whatever their lengths, one
    request leaves, and its body carries positions 0 and 1 of each array and
    nothing of the rest: [e0 :: e1 :: _] is sent as [e0], [e1]; a missing
    position is sent as the string "undefined". *)
Theorem X6_single_coat_positions (env : Instance.Adapter)
    (this : UnikhornCoatCalculator) (genes : HorseGenes) (b : BaseGenes)
    (e a : list string) (sent : list Axios.AxiosRequestConfig) :
  Client env this ->
  base genes = Some b ->
  extension b = Some e ->
  agouti b = Some a ->
  exists formData : URLSearchParams,
    snd (calculateSingleCoat this genes sent)
    = (sent ++ [request_config this "post" "/coats/result"
                               (Some (toString formData)) form_headers])%list
    /\ getAll formData "base[extension][]"
       = match e with
         | e0 :: e1 :: _ => [e0; e1]
         | [e0] => [e0; "undefined"]
         | [] => ["undefined"; "undefined"]
         end
    /\ getAll formData "base[agouti][]"
       = match a with
         | a0 :: a1 :: _ => [a0; a1]
         | [a0] => [a0; "undefined"]
         | [] => ["undefined"; "undefined"]
         end.
Proof.
  intros HC Hb He Ha.
  destruct (calculateSingleCoat_cases env this genes sent HC)
    as [[_ Hmiss]|(b' & e' & a' & Hb' & He' & Ha' & Hcall)].
  - exfalso. destruct Hmiss as [H|(b' & Hb' & [H|H])]; congruence.
  - assert (b' = b) by congruence. subst b'.
    assert (e' = e) by congruence. assert (a' = a) by congruence. subst e' a'.
    eexists. split; [rewrite Hcall; reflexivity|].
    unfold coat_form.
    destruct (others genes) as [o|];
      destruct e as [|e0 [|e1 e2]]; destruct a as [|a0 [|a1 a2]];
      split; reflexivity.
Qed.

Lemma X6_single_coat_positions_witness :
  Client env_ok (example_client env_ok)
  /\ exists formData : URLSearchParams,
       snd (calculateSingleCoat (example_client env_ok) G_uneven [])
       = [request_config (example_client env_ok) "post" "/coats/result"
                         (Some (toString formData)) form_headers]
       /\ getAll formData "base[extension][]" = ["E"; "undefined"]
       /\ getAll formData "base[agouti][]" = ["A"; "a"].
Proof.
  split; [apply example_client_Client|].
  exact (X6_single_coat_positions env_ok (example_client env_ok) G_uneven
           {| extension := Some ["E"]; agouti := Some ["A"; "a"; "At"] |}
           ["E"] ["A"; "a"; "At"] []
           (example_client_Client env_ok) eq_refl eq_refl eq_refl).
Defined.

(** *** [setLanguage] *)

(** X1: [setLanguage] changes the default language and nothing else of the
    client.  A later call without a per-call [lang] sends the new language;
    a call with its own [lang] behaves as before the change; of two changes
    the last one counts. *)
Theorem X1_setLanguage (env : Instance.Adapter) (this : UnikhornCoatCalculator)
    (l : Lang) (sent : list Axios.AxiosRequestConfig) :
  Client env this ->
  client (setLanguage this l) = client this
  /\ (forall l', setLanguage (setLanguage this l') l = setLanguage this l)
  /\ (forall offspring,
         Offspring.lang offspring = None ->
         exists formData : URLSearchParams,
           snd (calculateOffspring (setLanguage this l) offspring sent)
           = (sent ++ [request_config this "post" "/coats/generateChild"
                                      (Some (toString formData)) form_headers])%list
           /\ getAll formData "lang" = [lang_string l])
  /\ (forall genes e0 e1 a0 a1,
         base genes = Some {| extension := Some [e0; e1]; agouti := Some [a0; a1] |} ->
         lang genes = None ->
         exists formData : URLSearchParams,
           snd (calculateSingleCoat (setLanguage this l) genes sent)
           = (sent ++ [request_config this "post" "/coats/result"
                                      (Some (toString formData)) form_headers])%list
           /\ getAll formData "lang" = [lang_string l])
  /\ (forall genes l',
         lang genes = Some l' ->
         calculateSingleCoat (setLanguage this l) genes sent
         = calculateSingleCoat this genes sent)
  /\ (forall offspring l',
         Offspring.lang offspring = Some l' ->
         calculateOffspring (setLanguage this l) offspring sent
         = calculateOffspring this offspring sent).
Proof.
  intros HC.
  pose proof (Client_setLanguage env this l HC) as HC'.
  split; [reflexivity|]. split; [reflexivity|]. split; [|split; [|split]].
  - intros offspring Hl.
    exists (offspring_form (setLanguage this l) offspring). split.
    + rewrite (calculateOffspring_request env _ offspring sent HC'). reflexivity.
    + unfold offspring_form. rewrite Hl.
      destruct (Offspring.kit_linkage offspring), (Offspring.has_IDK offspring);
        reflexivity.
  - intros genes e0 e1 a0 a1 Hb Hl.
    exists (coat_form (setLanguage this l) genes e0 e1 a0 a1). split.
    + rewrite (calculateSingleCoat_request env _ genes e0 e1 a0 a1 sent HC' Hb).
      reflexivity.
    + unfold coat_form. rewrite Hl. destruct (others genes); reflexivity.
  - intros genes l' Hl. unfold calculateSingleCoat. rewrite Hl. reflexivity.
  - intros offspring l' Hl. unfold calculateOffspring. rewrite Hl. reflexivity.
Qed.

Lemma X1_setLanguage_witness :
  Client env_ok (example_client env_ok)
  /\ exists formData : URLSearchParams,
       snd (calculateSingleCoat (setLanguage (example_client env_ok) fr) G1 [])
       = [request_config (example_client env_ok) "post" "/coats/result"
                         (Some (toString formData)) form_headers]
       /\ getAll formData "lang" = ["fr"].
Proof.
  split; [apply example_client_Client|].
  exact (proj1 (proj2 (proj2 (proj2
           (X1_setLanguage env_ok (example_client env_ok) fr []
              (example_client_Client env_ok)))))
           G1 "E" "e" "A" "a" eq_refl eq_refl).
Defined.

(** *** Requests of a constructed client *)

Lemma constructor_defaults env config key sent this sent' :
  new_UnikhornCoatCalculator env config sent = (Return this, sent') ->
  Config.apiKey config = Some key ->
  Instance.headers (Instance.defaults (client this))
  = [("Authorization", "Bearer " ++ key);
     ("X-API-Key", key);
     ("Content-Type", "application/json");
     ("X-SDK-Version", "1.0.0");
     ("X-SDK-Language", "JavaScript")].
Proof.
  intros Hnew Hk. unfold new_UnikhornCoatCalculator in Hnew. rewrite Hk in Hnew.
  destruct key as [|c key]; [discriminate|].
  unfold ret in Hnew. injection Hnew as <- _. reflexivity.
Qed.

(** X2: every request of a client constructed with API key [key] carries
    [Authorization: Bearer key], [X-API-Key: key], [X-SDK-Version: 1.0.0]
    and [X-SDK-Language: JavaScript]; on the two POSTs the content type is
    application/x-www-form-urlencoded, in place of the default
    application/json. *)
Theorem X2_request_headers (env : Instance.Adapter) (config : Config.UnikhornConfig)
    (key : string) (sent0 sent0' : list Axios.AxiosRequestConfig)
    (this : UnikhornCoatCalculator) (sent : list Axios.AxiosRequestConfig) :
  new_UnikhornCoatCalculator env config sent0 = (Return this, sent0') ->
  Config.apiKey config = Some key ->
  let form_hdrs :=
    [("Authorization", "Bearer " ++ key);
     ("X-API-Key", key);
     ("Content-Type", "application/x-www-form-urlencoded");
     ("X-SDK-Version", "1.0.0");
     ("X-SDK-Language", "JavaScript")] in
  (forall offspring,
      exists c, snd (calculateOffspring this offspring sent) = (sent ++ [c])%list
                /\ Axios.headers c = form_hdrs)
  /\ (forall genes e0 e1 a0 a1,
         base genes = Some {| extension := Some [e0; e1]; agouti := Some [a0; a1] |} ->
         exists c, snd (calculateSingleCoat this genes sent) = (sent ++ [c])%list
                   /\ Axios.headers c = form_hdrs)
  /\ (exists c, snd (getApiInfo this sent) = (sent ++ [c])%list
                /\ forall h,
                     In h [("Authorization", "Bearer " ++ key);
                           ("X-API-Key", key);
                           ("X-SDK-Version", "1.0.0");
                           ("X-SDK-Language", "JavaScript")] ->
                     In h (Axios.headers c)).
Proof.
  intros Hnew Hk form_hdrs.
  pose proof (Client_new env config sent0 this sent0' Hnew) as HC.
  pose proof (constructor_defaults env config key sent0 this sent0' Hnew Hk) as Hh.
  split; [|split].
  - intros offspring. eexists. split.
    + rewrite (calculateOffspring_request env this offspring sent HC). reflexivity.
    + cbn [request_config Axios.headers]. rewrite Hh. reflexivity.
  - intros genes e0 e1 a0 a1 Hb. eexists. split.
    + rewrite (calculateSingleCoat_request env this genes e0 e1 a0 a1 sent HC Hb).
      reflexivity.
    + cbn [request_config Axios.headers]. rewrite Hh. reflexivity.
  - eexists. split.
    + rewrite (getApiInfo_request env this sent HC). reflexivity.
    + cbn [request_config Axios.headers fold_left]. rewrite Hh.
      intros h Hin. cbn in Hin |- *. tauto.
Qed.

Lemma X2_request_headers_witness :
  exists c,
    snd (calculateOffspring (example_client env_ok) example_offspring []) = [c]
    /\ Axios.headers c
       = [("Authorization", "Bearer key");
          ("X-API-Key", "key");
          ("Content-Type", "application/x-www-form-urlencoded");
          ("X-SDK-Version", "1.0.0");
          ("X-SDK-Language", "JavaScript")].
Proof.
  exact (proj1 (X2_request_headers env_ok example_config "key" [] []
                  (example_client env_ok) [] eq_refl eq_refl)
           example_offspring).
Defined.

(** X3: on a client, [getApiInfo] sends exactly one request, a GET of
    /coats/api-info without body; if the adapter answers with a response the
    method returns its data unchanged, otherwise it rejects. *)
Theorem X3_getApiInfo (env : Instance.Adapter) (this : UnikhornCoatCalculator)
    (sent : list Axios.AxiosRequestConfig) :
  Client env this ->
  exists c,
    snd (getApiInfo this sent) = (sent ++ [c])%list
    /\ Axios.method c = "get"
    /\ Axios.url c = "/coats/api-info"
    /\ Axios.req_data c = None
    /\ Axios.baseURL c = Instance.baseURL (Instance.defaults (client this))
    /\ Axios.timeout c = Instance.timeout (Instance.defaults (client this))
    /\ (forall r, env sent c = Return r -> fst (getApiInfo this sent) = Return (Axios.data r))
    /\ (forall e, env sent c = Throw e -> exists a, fst (getApiInfo this sent) = Throw (ThrownAPI a)).
Proof.
  intros HC. eexists. rewrite (getApiInfo_request env this sent HC). cbv zeta.
  split; [reflexivity|]. do 5 (split; [reflexivity|]). split.
  - intros r Hr. cbn [fst]. rewrite Hr. reflexivity.
  - intros e He. cbn [fst]. rewrite He. eexists. reflexivity.
Qed.

Lemma X3_getApiInfo_witness :
  Client env_ok (example_client env_ok)
  /\ getApiInfo (example_client env_ok) []
     = (Return (VNum 0),
        [request_config (example_client env_ok) "get" "/coats/api-info" None []]).
Proof.
  split; [apply example_client_Client|].
  destruct (X3_getApiInfo env_ok (example_client env_ok) [] (example_client_Client env_ok))
    as (c & Hs & _ & _ & _ & _ & _ & Hr & _).
  rewrite (surjective_pairing (getApiInfo (example_client env_ok) [])).
  rewrite Hs in *. cbn [app] in *.
  assert (Hc : c = request_config (example_client env_ok) "get" "/coats/api-info" None []).
  { cbn in Hs. injection Hs as <-. reflexivity. }
  subst c. rewrite (Hr _ eq_refl). reflexivity.
Defined.

(** X4: on a client, when the adapter answers the request with a response,
    [calculateSingleCoat] and [calculateOffspring] return the data of that
    response unchanged, whatever its status field says. *)
Theorem X4_response_data_verbatim (env : Instance.Adapter)
    (this : UnikhornCoatCalculator) (sent : list Axios.AxiosRequestConfig) :
  Client env this ->
  (forall genes e0 e1 a0 a1 r,
      base genes = Some {| extension := Some [e0; e1]; agouti := Some [a0; a1] |} ->
      env sent (request_config this "post" "/coats/result"
                  (Some (toString (coat_form this genes e0 e1 a0 a1))) form_headers)
      = Return r ->
      fst (calculateSingleCoat this genes sent) = Return (Axios.data r))
  /\ (forall offspring r,
         env sent (request_config this "post" "/coats/generateChild"
                     (Some (toString (offspring_form this offspring))) form_headers)
         = Return r ->
         fst (calculateOffspring this offspring sent) = Return (Axios.data r)).
Proof.
  intros HC. split.
  - intros genes e0 e1 a0 a1 r Hb Hr.
    rewrite (calculateSingleCoat_request env this genes e0 e1 a0 a1 sent HC Hb).
    cbv zeta. cbn [fst]. rewrite Hr. reflexivity.
  - intros offspring r Hr.
    rewrite (calculateOffspring_request env this offspring sent HC).
    cbv zeta. cbn [fst]. rewrite Hr. reflexivity.
Qed.

Lemma X4_response_data_verbatim_witness :
  Client env_ok (example_client env_ok)
  /\ fst (calculateSingleCoat (example_client env_ok) G1 []) = Return (VNum 0).
Proof.
  split; [apply example_client_Client|].
  exact (proj1 (X4_response_data_verbatim env_ok (example_client env_ok) []
                  (example_client_Client env_ok))
           G1 "E" "e" "A" "a" {| Axios.data := VNum 0; Axios.status := 200 |}
           eq_refl eq_refl).
Defined.

(** *** The error mapper, all inputs *)

(** X9: [handleError] always throws, and never an axios error.  For an
    axios error with a response (which wins over a request) it throws the
    [UnikhornAPIError] with the response's status and data, whose message
    is the body's [message] converted to a string when that is truthy and
    "API request failed" otherwise; when a truthy [message] cannot be
    converted (an object with an own [toString] property) the constructor
    fails and a TypeError is thrown instead.  For an axios error with a
    request only it throws "No response from server" with status 0; for
    every other input, a [UnikhornAPIError] included, the generic "An
    unexpected error occurred".  A [UnikhornAPIError] it throws carries a
    status code exactly when the input was an axios error with a response
    or a request. *)
Theorem X9_handleError_table (error : thrown) (sent : list Axios.AxiosRequestConfig) :
  exists t,
    handleError error sent = (Throw t, sent)
    /\ (forall ax, t <> ThrownAxios ax)
    /\ (forall ax resp,
           error = ThrownAxios ax -> Axios.response ax = Some resp ->
           let m := get_opt (Axios.data resp) "message" in
           (truthy m = false ->
            t = ThrownAPI {| name := "UnikhornAPIError";
                             message := "API request failed";
                             statusCode := Some (Axios.status resp);
                             response := Axios.data resp |})
           /\ (forall s, truthy m = true -> to_string m = Some s ->
                          t = ThrownAPI {| name := "UnikhornAPIError";
                                           message := s;
                                           statusCode := Some (Axios.status resp);
                                           response := Axios.data resp |})
           /\ (truthy m = true -> to_string m = None ->
               t = ThrownError "TypeError" "Cannot convert object to primitive value"))
    /\ (forall ax,
           error = ThrownAxios ax -> Axios.response ax = None ->
           Axios.request ax = true ->
           t = ThrownAPI {| name := "UnikhornAPIError";
                            message := "No response from server";
                            statusCode := Some 0;
                            response := VUndefined |})
    /\ ((forall ax, error = ThrownAxios ax ->
                    Axios.response ax = None /\ Axios.request ax = false) ->
        t = ThrownAPI {| name := "UnikhornAPIError";
                         message := "An unexpected error occurred";
                         statusCode := None;
                         response := VUndefined |})
    /\ (forall a, t = ThrownAPI a ->
                  name a = "UnikhornAPIError"
                  /\ (statusCode a <> None
                      <-> exists ax, error = ThrownAxios ax
                                     /\ (Axios.response ax <> None
                                         \/ Axios.request ax = true))).
Proof.
  exists (handleError_thrown error). split; [apply handleError_throws|].
  split.
  { intros ax H. pose proof (handleError_thrown_not_axios error) as Hn.
    rewrite H in Hn. discriminate Hn. }
  destruct error as [[[resp|] req]|a|k m|v].
  - rewrite handleError_response. cbv zeta.
    split; [|split; [|split]].
    + intros ax resp' [= <-] [= <-]. cbn [Axios.data Axios.status].
      split; [intros ->; reflexivity|].
      split; [intros s -> ->; reflexivity|intros -> ->; reflexivity].
    + intros ax [= <-] H. discriminate H.
    + intros H. destruct (H _ eq_refl) as [H' _]. discriminate H'.
    + intros a Ha.
      destruct (truthy _); [destruct (to_string _); [|discriminate Ha]|];
        injection Ha as <-; (split; [reflexivity|]);
        (split; [intros _; eexists; split; [reflexivity|left; discriminate]
                |discriminate]).
  - destruct req.
    + split; [|split; [|split]].
      * intros ax resp' [= <-] H. discriminate H.
      * intros ax [= <-] _ _. reflexivity.
      * intros H. destruct (H _ eq_refl) as [_ H']. discriminate H'.
      * intros a [= <-]. split; [reflexivity|].
        split; [intros _; eexists; split; [reflexivity|right; reflexivity]|discriminate].
    + split; [|split; [|split]].
      * intros ax resp' [= <-] H. discriminate H.
      * intros ax [= <-] _ H. discriminate H.
      * intros _. reflexivity.
      * intros a [= <-]. split; [reflexivity|].
        split; [intros H; exfalso; apply H; reflexivity|].
        intros (ax & [= <-] & [H|H]); [exfalso; apply H; reflexivity|discriminate H].
  - split; [|split; [|split]].
    + intros ax resp' H. discriminate H.
    + intros ax H. discriminate H.
    + intros _. reflexivity.
    + intros a' [= <-]. split; [reflexivity|].
      split; [intros H; exfalso; apply H; reflexivity|intros (ax & H & _); discriminate H].
  - split; [|split; [|split]].
    + intros ax resp' H. discriminate H.
    + intros ax H. discriminate H.
    + intros _. reflexivity.
    + intros a' [= <-]. split; [reflexivity|].
      split; [intros H; exfalso; apply H; reflexivity|intros (ax & H & _); discriminate H].
  - split; [|split; [|split]].
    + intros ax resp' H. discriminate H.
    + intros ax H. discriminate H.
    + intros _. reflexivity.
    + intros a' [= <-]. split; [reflexivity|].
      split; [intros H; exfalso; apply H; reflexivity|intros (ax & H & _); discriminate H].
Qed.

Lemma X9_handleError_table_witness :
  handleError failure_unconvertible []
  = (Throw (ThrownError "TypeError" "Cannot convert object to primitive value"), [])
  /\ handleError failure_422 []
     = (Throw (ThrownAPI {| name := "UnikhornAPIError";
                            message := "invalid allele";
                            statusCode := Some 422;
                            response := body_422 |}), []).
Proof.
  split.
  - destruct (X9_handleError_table failure_unconvertible [])
      as (t & Ht & _ & Hresp & _).
    rewrite Ht.
    rewrite (proj2 (proj2 (Hresp _ _ eq_refl eq_refl)) eq_refl eq_refl).
    reflexivity.
  - destruct (X9_handleError_table failure_422 []) as (t & Ht & _ & Hresp & _).
    rewrite Ht.
    rewrite (proj1 (proj2 (Hresp _ _ eq_refl eq_refl)) "invalid allele" eq_refl eq_refl).
    reflexivity.
Defined.

(** *** [validateGenes] and the request *)

Lemma typed_iff_not_two (b : BaseGenes) :
  not_two (extension b) = false /\ not_two (agouti b) = false
  <-> exists e0 e1 a0 a1,
        b = {| extension := Some [e0; e1]; agouti := Some [a0; a1] |}.
Proof.
  destruct b as [e a]. cbn [extension agouti]. split.
  - intros [He Ha]. apply not_two_false in He, Ha.
    destruct He as (le & -> & Hle), Ha as (la & -> & Hla).
    destruct le as [|e0 [|e1 [|]]]; try discriminate.
    destruct la as [|a0 [|a1 [|]]]; try discriminate.
    exists e0, e1, a0, a1. reflexivity.
  - intros (e0 & e1 & a0 & a1 & [= -> ->]). split; reflexivity.
Qed.

Lemma validateGenes_shape (this : UnikhornCoatCalculator) (genes : HorseGenes)
    (sent : list Axios.AxiosRequestConfig) :
  exists v,
    validateGenes this genes sent = (Return v, sent)
    /\ (valid v = true <-> errors v = None)
    /\ (valid v = true
        <-> exists e0 e1 a0 a1,
              base genes = Some {| extension := Some [e0; e1]; agouti := Some [a0; a1] |})
    /\ (forall l, errors v = Some l ->
                  l <> [] /\ (List.length l <= 2)%nat /\ NoDup l).
Proof.
  eexists. split; [reflexivity|].
  destruct (base genes) as [b|] eqn:Hb.
  - pose proof (typed_iff_not_two b) as Ht.
    destruct (not_two (extension b)), (not_two (agouti b)); cbn;
      (split; [split; intros H; first [reflexivity | discriminate H]|]);
      (split;
       [split;
        [intros H; first [discriminate H
                         | destruct (proj1 Ht (conj eq_refl eq_refl))
                             as (e0 & e1 & a0 & a1 & ->);
                           exists e0, e1, a0, a1; reflexivity]
        |intros (e0 & e1 & a0 & a1 & [= ->]);
         first [reflexivity
               | destruct (proj2 Ht (ex_intro _ e0 (ex_intro _ e1 (ex_intro _ a0
                             (ex_intro _ a1 eq_refl))))) as [H1 H2];
                 first [discriminate H1 | discriminate H2]]]
       |]);
      intros l Hl; try discriminate Hl; injection Hl as <-;
      (split; [discriminate|]); (split; [cbn; lia|]);
      repeat constructor; cbn; intros H;
      repeat match goal with
             | H : _ \/ _ |- _ => destruct H
             | H : False |- _ => destruct H
             | H : _ = _ |- _ => discriminate H
             end.
  - cbn. split; [split; intros H; discriminate H|].
    split; [split; [intros H; discriminate H
                   |intros (e0 & e1 & a0 & a1 & H); discriminate H]|].
    intros l [= <-]. split; [discriminate|]. split; [cbn; lia|].
    repeat constructor. intros [].
Qed.

(** X10: the result of [validateGenes] is valid exactly when it has no
    error list, and exactly when [base] is present with a two-element
    [extension] and a two-element [agouti]; an error list is never empty,
    never repeats a message and holds at most two. *)
Theorem X10_validateGenes_result (this : UnikhornCoatCalculator) (genes : HorseGenes)
    (sent : list Axios.AxiosRequestConfig) :
  exists v,
    validateGenes this genes sent = (Return v, sent)
    /\ (valid v = true <-> errors v = None)
    /\ (valid v = true
        <-> exists e0 e1 a0 a1,
              base genes = Some {| extension := Some [e0; e1]; agouti := Some [a0; a1] |})
    /\ (forall l, errors v = Some l ->
                  l <> [] /\ (List.length l <= 2)%nat /\ NoDup l).
Proof. apply validateGenes_shape. Qed.

(** X11: genes that [validateGenes] accepts never fail while the request of
    [calculateSingleCoat] is built: on a client exactly one request leaves,
    carrying the two extension and the two agouti alleles. *)
Theorem X11_valid_genes_are_sent (env : Instance.Adapter)
    (this : UnikhornCoatCalculator) (genes : HorseGenes) (v : Validation)
    (sent0 sent : list Axios.AxiosRequestConfig) :
  Client env this ->
  validateGenes this genes sent0 = (Return v, sent0) ->
  valid v = true ->
  exists e0 e1 a0 a1,
    base genes = Some {| extension := Some [e0; e1]; agouti := Some [a0; a1] |}
    /\ snd (calculateSingleCoat this genes sent)
       = (sent ++ [request_config this "post" "/coats/result"
                     (Some (toString (coat_form this genes e0 e1 a0 a1)))
                     form_headers])%list
    /\ getAll (coat_form this genes e0 e1 a0 a1) "base[extension][]" = [e0; e1]
    /\ getAll (coat_form this genes e0 e1 a0 a1) "base[agouti][]" = [a0; a1].
Proof.
  intros HC Hv Hvalid.
  destruct (validateGenes_shape this genes sent0) as (v' & Hv' & _ & Htyped & _).
  rewrite Hv in Hv'. injection Hv' as <-.
  destruct (proj1 Htyped Hvalid) as (e0 & e1 & a0 & a1 & Hb).
  exists e0, e1, a0, a1. split; [exact Hb|]. split.
  - rewrite (calculateSingleCoat_request env this genes e0 e1 a0 a1 sent HC Hb).
    reflexivity.
  - unfold coat_form. destruct (others genes); split; reflexivity.
Qed.

Lemma X11_valid_genes_are_sent_witness :
  Client env_ok (example_client env_ok)
  /\ validateGenes (example_client env_ok) G2 [] = (Return {| valid := true; errors := None |}, [])
  /\ snd (calculateSingleCoat (example_client env_ok) G2 [])
     = [request_config (example_client env_ok) "post" "/coats/result"
          (Some "base%5Bextension%5D%5B%5D=e&base%5Bextension%5D%5B%5D=e&base%5Bagouti%5D%5B%5D=a&base%5Bagouti%5D%5B%5D=a&lang=fr")
          form_headers].
Proof.
  split; [apply example_client_Client|]. split; [reflexivity|].
  destruct (X11_valid_genes_are_sent env_ok (example_client env_ok) G2
              {| valid := true; errors := None |} [] []
              (example_client_Client env_ok) eq_refl eq_refl)
    as (e0 & e1 & a0 & a1 & Hb & Hs & _).
  injection Hb as <- <- <- <-. rewrite Hs. reflexivity.
Defined.

(** *** Construction, edge values *)

(** X12: with a non-empty API key, a configured timeout of 0 and a
    configured empty base URL do not reach the client: it gets the defaults
    30000 and https://api.unikhorn.io/v1 instead. *)
Theorem X12_constructor_falsy_options (env : Instance.Adapter)
    (config : Config.UnikhornConfig) (key : string)
    (sent : list Axios.AxiosRequestConfig) :
  Config.apiKey config = Some key ->
  key <> EmptyString ->
  exists this,
    new_UnikhornCoatCalculator env config sent = (Return this, sent)
    /\ (Config.timeout config = Some 0 ->
        Instance.timeout (Instance.defaults (client this)) = 30000)
    /\ (Config.baseURL config = Some EmptyString ->
        Instance.baseURL (Instance.defaults (client this)) = "https://api.unikhorn.io/v1").
Proof.
  intros Hk Hne. unfold new_UnikhornCoatCalculator. rewrite Hk.
  destruct key as [|c key]; [contradiction|].
  eexists. split; [reflexivity|]. cbn. split; intros ->; reflexivity.
Qed.

Lemma X12_constructor_falsy_options_witness :
  exists this,
    new_UnikhornCoatCalculator env_ok
      {| Config.apiKey := Some "key"; Config.baseURL := Some EmptyString;
         Config.language := Some fr; Config.timeout := Some 0 |} []
    = (Return this, [])
    /\ Instance.timeout (Instance.defaults (client this)) = 30000
    /\ Instance.baseURL (Instance.defaults (client this)) = "https://api.unikhorn.io/v1".
Proof.
  destruct (X12_constructor_falsy_options env_ok
              {| Config.apiKey := Some "key"; Config.baseURL := Some EmptyString;
                 Config.language := Some fr; Config.timeout := Some 0 |} "key" []
              eq_refl)
    as (this & Hnew & Ht & Hu); [discriminate|].
  exists this. split; [exact Hnew|]. split; [apply Ht|apply Hu]; reflexivity.
Defined.

(** *** The batch, further *)

Lemma batch_loop_results this horses :
  forall results sent,
    batch_loop this horses results sent
    = match batch_loop this horses [] sent with
      | (Return rs, sent') => (Return (results ++ rs)%list, sent')
      | (Throw e, sent') => (Throw e, sent')
      end.
Proof.
  induction horses as [|horse rest IH]; intros results sent.
  - cbn. unfold ret. rewrite app_nil_r. reflexivity.
  - destruct (calculateSingleCoat this (BatchItem.genes horse) sent)
      as [[r|e] sent1] eqn:Hcall.
    + rewrite !(batch_loop_step_ok _ _ _ _ _ _ _ Hcall).
      rewrite (IH (results ++ _)%list), (IH ([] ++ _)%list).
      destruct (batch_loop this rest [] sent1) as [[rs|e] sent2]; [|reflexivity].
      rewrite <- app_assoc. reflexivity.
    + rewrite !(batch_loop_step_fail _ _ _ _ _ _ _ Hcall). reflexivity.
Qed.

Lemma batch_loop_app this xs ys :
  forall results sent,
    batch_loop this (xs ++ ys) results sent
    = match batch_loop this xs results sent with
      | (Return rs, sent') => batch_loop this ys rs sent'
      | (Throw e, sent') => (Throw e, sent')
      end.
Proof.
  induction xs as [|horse rest IH]; intros results sent.
  - reflexivity.
  - cbn [app].
    destruct (calculateSingleCoat this (BatchItem.genes horse) sent)
      as [[r|e] sent1] eqn:Hcall.
    + rewrite !(batch_loop_step_ok _ _ _ _ _ _ _ Hcall). apply IH.
    + rewrite !(batch_loop_step_fail _ _ _ _ _ _ _ Hcall). reflexivity.
Qed.

(** X15: [batchCalculate] calls [calculateSingleCoat] on the items one
    after the other in input order.  If every call succeeds it returns one
    [{id, result}] per item, in input order, each pairing the item's id with
    the result of its call (and, typed genes given, the requests went out
    in input order, one per item).  If a call fails it rejects with the
    generic "An unexpected error occurred" error, in the state that call
    left: no later item is called and no result is returned.  One of the
    two always happens. *)
Theorem X15_batch_sequencing (this : UnikhornCoatCalculator) (horses : list BatchItem.t)
    (sent : list Axios.AxiosRequestConfig) :
  (forall rs sent',
      calls this sent horses rs sent' ->
      batchCalculate this horses sent = (Return rs, sent')
      /\ map BatchResult.id rs = map BatchItem.id horses)
  /\ (forall done rs horse rest sent1 e sent2,
         horses = (done ++ horse :: rest)%list ->
         calls this sent done rs sent1 ->
         calculateSingleCoat this (BatchItem.genes horse) sent1 = (Throw e, sent2) ->
         batchCalculate this horses sent
         = (Throw (ThrownAPI {| name := "UnikhornAPIError";
                                message := "An unexpected error occurred";
                                statusCode := None;
                                response := VUndefined |}), sent2))
  /\ ((exists rs sent', calls this sent horses rs sent')
      \/ (exists done rs horse rest sent1 e sent2,
             horses = (done ++ horse :: rest)%list
             /\ calls this sent done rs sent1
             /\ calculateSingleCoat this (BatchItem.genes horse) sent1 = (Throw e, sent2)))
  /\ (forall env rs sent',
         Client env this ->
         calls this sent horses rs sent' ->
         (forall h, In h horses ->
            exists e0 e1 a0 a1,
              base (BatchItem.genes h)
              = Some {| extension := Some [e0; e1]; agouti := Some [a0; a1] |}) ->
         exists reqs,
           sent' = (sent ++ reqs)%list
           /\ Forall2 (fun h config =>
                         exists e0 e1 a0 a1,
                           base (BatchItem.genes h)
                           = Some {| extension := Some [e0; e1];
                                     agouti := Some [a0; a1] |}
                           /\ config
                              = request_config this "post" "/coats/result"
                                  (Some (toString
                                           (coat_form this (BatchItem.genes h) e0 e1 a0 a1)))
                                  form_headers)
                      horses reqs).
Proof.
  split; [|split; [|split]].
  - intros rs sent' Hc. split.
    + unfold batchCalculate. rewrite (batch_loop_calls _ _ _ _ _ Hc). reflexivity.
    + eapply calls_ids; exact Hc.
  - intros done rs horse rest sent1 e sent2 -> Hc Hf.
    unfold batchCalculate.
    rewrite (batch_loop_first_failure _ _ _ _ _ Hc _ _ _ _ _ Hf).
    rewrite (calculateSingleCoat_throws_mapped _ _ _ _ _ Hf). reflexivity.
  - apply calls_or_first_failure.
  - intros env rs sent' HC Hc Ht. eapply calls_requests; eassumption.
Qed.

Lemma X15_batch_sequencing_witness :
  batchCalculate (example_client env_ok) example_batch []
  = (Return [{| BatchResult.id := "a"; BatchResult.result := VNum 0 |};
             {| BatchResult.id := "b"; BatchResult.result := VNum 1 |}],
     [request_config (example_client env_ok) "post" "/coats/result"
        (Some (toString (coat_form (example_client env_ok) G1 "E" "e" "A" "a")))
        form_headers;
      request_config (example_client env_ok) "post" "/coats/result"
        (Some (toString (coat_form (example_client env_ok) G2 "e" "e" "a" "a")))
        form_headers])
  /\ fst (batchCalculate (example_client env_second_fails) example_batch [])
     = Throw (ThrownAPI unexpected).
Proof.
  split.
  - apply (proj1 (X15_batch_sequencing (example_client env_ok) example_batch [])).
    eapply (calls_cons _ [] {| BatchItem.id := "a"; BatchItem.genes := G1 |});
      [reflexivity|].
    eapply (calls_cons _ _ {| BatchItem.id := "b"; BatchItem.genes := G2 |});
      [reflexivity|].
    apply calls_nil.
  - rewrite (proj1 (proj2 (X15_batch_sequencing (example_client env_second_fails)
                             example_batch []))
               [{| BatchItem.id := "a"; BatchItem.genes := G1 |}]
               [{| BatchResult.id := "a"; BatchResult.result := VNum 0 |}]
               {| BatchItem.id := "b"; BatchItem.genes := G2 |}
               []
               [request_config (example_client env_second_fails) "post" "/coats/result"
                  (Some (toString
                           (coat_form (example_client env_second_fails) G1 "E" "e" "A" "a")))
                  form_headers]
               (ThrownAPI unexpected)
               [request_config (example_client env_second_fails) "post" "/coats/result"
                  (Some (toString
                           (coat_form (example_client env_second_fails) G1 "E" "e" "A" "a")))
                  form_headers;
                request_config (example_client env_second_fails) "post" "/coats/result"
                  (Some (toString
                           (coat_form (example_client env_second_fails) G2 "e" "e" "a" "a")))
                  form_headers]
               eq_refl).
    + reflexivity.
    + eapply (calls_cons _ [] {| BatchItem.id := "a"; BatchItem.genes := G1 |});
        [reflexivity|apply calls_nil].
    + reflexivity.
Defined.

(** X13: a batch over [xs ++ ys] is the batch over [xs] followed, if that
    one returned, by the batch over [ys] in the state it left, the two
    result lists appended; if the batch over [xs] rejects, so does the whole
    with the same error, and nothing of [ys] is called. *)
Theorem X13_batch_concatenation (this : UnikhornCoatCalculator)
    (xs ys : list BatchItem.t) (sent : list Axios.AxiosRequestConfig) :
  batchCalculate this (xs ++ ys) sent
  = match batchCalculate this xs sent with
    | (Return rs1, sent1) =>
        match batchCalculate this ys sent1 with
        | (Return rs2, sent2) => (Return (rs1 ++ rs2)%list, sent2)
        | (Throw e, sent2) => (Throw e, sent2)
        end
    | (Throw e, sent1) => (Throw e, sent1)
    end.
Proof.
  unfold batchCalculate. rewrite batch_loop_app.
  destruct (batch_loop this xs [] sent) as [[rs1|e] sent1]; [|reflexivity].
  apply batch_loop_results.
Qed.

Lemma batch_loop_rejects_generic this horses :
  forall results sent e sent',
    batch_loop this horses results sent = (Throw e, sent') ->
    e = ThrownAPI unexpected.
Proof.
  induction horses as [|horse rest IH]; intros results sent e sent' H.
  - discriminate H.
  - destruct (calculateSingleCoat this (BatchItem.genes horse) sent)
      as [[r|e1] sent1] eqn:Hcall.
    + rewrite (batch_loop_step_ok _ _ _ _ _ _ _ Hcall) in H. eapply IH; exact H.
    + rewrite (batch_loop_step_fail _ _ _ _ _ _ _ Hcall) in H.
      injection H as <- _.
      exact (calculateSingleCoat_throws_mapped _ _ _ _ _ Hcall).
Qed.

(** X8: whatever the axios instance of the client does, a rejection of
    [batchCalculate] is always the generic "An unexpected error occurred"
    error without status code and response: the error of the failing
    single-coat call is itself a [UnikhornAPIError], which [handleError]
    does not pass on. *)
Theorem X8_batch_rejection_is_generic (this : UnikhornCoatCalculator)
    (horses : list BatchItem.t) (sent sent' : list Axios.AxiosRequestConfig)
    (e : thrown) :
  batchCalculate this horses sent = (Throw e, sent') ->
  e = ThrownAPI {| name := "UnikhornAPIError";
                   message := "An unexpected error occurred";
                   statusCode := None;
                   response := VUndefined |}.
Proof.
  intros H. eapply batch_loop_rejects_generic. exact H.
Qed.

Lemma X8_batch_rejection_is_generic_witness :
  batchCalculate (example_client env_second_fails) example_batch []
  = (Throw (ThrownAPI unexpected),
     snd (batchCalculate (example_client env_second_fails) example_batch []))
  /\ ThrownAPI unexpected
     = ThrownAPI {| name := "UnikhornAPIError";
                    message := "An unexpected error occurred";
                    statusCode := None;
                    response := VUndefined |}.
Proof.
  split; [reflexivity|].
  exact (X8_batch_rejection_is_generic (example_client env_second_fails) example_batch
           [] _ (ThrownAPI unexpected) eq_refl).
Defined.

Lemma calculateSingleCoat_sent env this genes sent :
  Client env this ->
  exists reqs,
    snd (calculateSingleCoat this genes sent) = (sent ++ reqs)%list
    /\ (List.length reqs <= 1)%nat
    /\ Forall coat_post reqs
    /\ (forall r, fst (calculateSingleCoat this genes sent) = Return r ->
                  List.length reqs = 1%nat).
Proof.
  intros HC.
  destruct (calculateSingleCoat_cases env this genes sent HC)
    as [[H _]|(b & e & a & _ & _ & _ & H)].
  - exists []. rewrite H, app_nil_r. cbn.
    split; [reflexivity|]. split; [lia|]. split; [constructor|discriminate].
  - cbv zeta in H. eexists [_]. rewrite H. cbn [snd fst].
    split; [reflexivity|]. split; [cbn; lia|].
    split; [repeat constructor|reflexivity].
Qed.

Lemma batch_loop_sent env this horses :
  Client env this ->
  forall results sent,
  exists reqs,
    snd (batch_loop this horses results sent) = (sent ++ reqs)%list
    /\ (List.length reqs <= List.length horses)%nat
    /\ Forall coat_post reqs
    /\ (forall rs, fst (batch_loop this horses results sent) = Return rs ->
                   List.length reqs = List.length horses).
Proof.
  intros HC. induction horses as [|horse rest IH]; intros results sent.
  - exists []. cbn. rewrite app_nil_r.
    split; [reflexivity|]. split; [lia|]. split; [constructor|reflexivity].
  - destruct (calculateSingleCoat_sent env this (BatchItem.genes horse) sent HC)
      as (r1 & Hs & Hle & HF & Hone).
    destruct (calculateSingleCoat this (BatchItem.genes horse) sent)
      as [[r|e] sent1] eqn:Hcall; cbn [fst snd] in Hs, Hone.
    + rewrite (batch_loop_step_ok _ _ _ _ _ _ _ Hcall).
      destruct (IH (results ++ [{| BatchResult.id := BatchItem.id horse;
                                   BatchResult.result := r |}])%list sent1)
        as (r2 & Hs2 & Hle2 & HF2 & Hall).
      exists (r1 ++ r2)%list. subst sent1. rewrite Hs2, <- app_assoc.
      split; [reflexivity|]. rewrite length_app. cbn [List.length].
      split; [lia|]. split; [apply Forall_app; split; assumption|].
      intros rs Hrs. rewrite (Hone r eq_refl), (Hall rs Hrs). reflexivity.
    + rewrite (batch_loop_step_fail _ _ _ _ _ _ _ Hcall). cbn [fst snd].
      exists r1. split; [exact Hs|]. cbn [List.length].
      split; [lia|]. split; [exact HF|discriminate].
Qed.

(** X7: on a client, [batchCalculate] adds to the requests made so far
    only POSTs to /coats/result, at most one per item and none for an empty
    list; when it returns, it has sent exactly one per item. *)
Theorem X7_batch_requests (env : Instance.Adapter) (this : UnikhornCoatCalculator)
    (horses : list BatchItem.t) (sent : list Axios.AxiosRequestConfig) :
  Client env this ->
  exists reqs,
    snd (batchCalculate this horses sent) = (sent ++ reqs)%list
    /\ (List.length reqs <= List.length horses)%nat
    /\ (forall c, In c reqs ->
                  Axios.method c = "post" /\ Axios.url c = "/coats/result")
    /\ (forall rs, fst (batchCalculate this horses sent) = Return rs ->
                   List.length reqs = List.length horses
                   /\ List.length rs = List.length horses).
Proof.
  intros HC.
  destruct (batch_loop_sent env this horses HC [] sent) as (reqs & Hs & Hle & HF & Hall).
  exists reqs. split; [exact Hs|]. split; [exact Hle|]. split.
  - intros c Hin. rewrite Forall_forall in HF. exact (HF c Hin).
  - intros rs Hrs. split; [exact (Hall rs Hrs)|].
    destruct (calls_or_first_failure this horses sent)
      as [(rs' & sent' & Hc)
         |(done & rs' & h & rest & s1 & e & s2 & -> & Hc & Hf)].
    + unfold batchCalculate in Hrs. rewrite (batch_loop_calls _ _ _ _ _ Hc) in Hrs.
      cbn in Hrs. injection Hrs as <-.
      rewrite <- (length_map BatchResult.id), (calls_ids _ _ _ _ _ Hc), length_map.
      reflexivity.
    + unfold batchCalculate in Hrs.
      rewrite (batch_loop_first_failure _ _ _ _ _ Hc _ _ _ _ _ Hf) in Hrs.
      discriminate Hrs.
Qed.

Lemma X7_batch_requests_witness :
  Client env_second_fails (example_client env_second_fails)
  /\ exists reqs,
       snd (batchCalculate (example_client env_second_fails) example_batch []) = reqs
       /\ (List.length reqs <= 2)%nat.
Proof.
  split; [apply example_client_Client|].
  destruct (X7_batch_requests env_second_fails (example_client env_second_fails)
              example_batch [] (example_client_Client _))
    as (reqs & Hs & Hle & _).
  exists reqs. split; [exact Hs|exact Hle].
Defined.

(** X14: on a client, whatever the adapter answers, a rejection of
    [calculateSingleCoat], [calculateOffspring], [getApiInfo] or
    [batchCalculate] is always the same error, "An unexpected error
    occurred" without status code and response. *)
Theorem X14_rejections_are_generic (env : Instance.Adapter)
    (this : UnikhornCoatCalculator) (sent : list Axios.AxiosRequestConfig)
    (e : thrown) :
  Client env this ->
  let generic := ThrownAPI {| name := "UnikhornAPIError";
                              message := "An unexpected error occurred";
                              statusCode := None;
                              response := VUndefined |} in
  (forall genes, fst (calculateSingleCoat this genes sent) = Throw e -> e = generic)
  /\ (forall offspring, fst (calculateOffspring this offspring sent) = Throw e -> e = generic)
  /\ (fst (getApiInfo this sent) = Throw e -> e = generic)
  /\ (forall horses, fst (batchCalculate this horses sent) = Throw e -> e = generic).
Proof.
  intros HC generic. split; [|split; [|split]].
  - intros genes H.
    destruct (calculateSingleCoat_cases env this genes sent HC)
      as [[Hc _]|(b & x & a & _ & _ & _ & Hc)]; cbv zeta in Hc; rewrite Hc in H.
    + injection H as <-. reflexivity.
    + cbn [fst] in H. unfold surfaced in H.
      match type of H with match ?ans with _ => _ end = _ => destruct ans end;
        [discriminate H|injection H as <-; reflexivity].
  - intros offspring H.
    rewrite (calculateOffspring_request env this offspring sent HC) in H.
    cbv zeta in H. cbn [fst] in H. unfold surfaced in H.
    match type of H with match ?ans with _ => _ end = _ => destruct ans end;
      [discriminate H|injection H as <-; reflexivity].
  - intros H. rewrite (getApiInfo_request env this sent HC) in H.
    cbv zeta in H. cbn [fst] in H. unfold surfaced in H.
    match type of H with match ?ans with _ => _ end = _ => destruct ans end;
      [discriminate H|injection H as <-; reflexivity].
  - intros horses H.
    destruct (batchCalculate this horses sent) as [o s'] eqn:Hb. cbn [fst] in H.
    subst o. exact (batch_loop_rejects_generic this horses [] sent e s' Hb).
Qed.

Lemma X14_rejections_are_generic_witness :
  Client (env_fails failure_422) (example_client (env_fails failure_422))
  /\ forall e,
       fst (getApiInfo (example_client (env_fails failure_422)) []) = Throw e ->
       e = ThrownAPI unexpected.
Proof.
  split; [apply example_client_Client|].
  intros e.
  exact (proj1 (proj2 (proj2
           (X14_rejections_are_generic (env_fails failure_422)
              (example_client (env_fails failure_422)) [] e
              (example_client_Client _))))).
Defined.
